(** * Image inventory of a PDF: the page scan of [cmder/main.go]

    A shallow embedding of [extractImageInfo], [extractImagesFromPage] and
    [extractAllImages], and the properties of the scan.

    The program reads the document through the pdfcpu library (packages
    [model] and [types]), which is not part of the program's own source.
    Values of [types.Object] are an inductive type, a [types.Dict] is a finite
    map from keys to objects, and what the cross-reference table answers
    ([PageDict], [Dereference], [DereferenceXObjectDict]) is a field of the
    context: the theorems hold for every document.  A call of a function of
    the program returns or panics: [extractImagesFromPage] calls a method on
    the stream pointer it got from the library after testing the error only,
    and the library answers a reference to a missing object with a nil
    pointer and a nil error. *)

From stdpp Require Import gmap strings list fin_maps.
From Stdlib Require Import ZArith Lia.

#[local] Open Scope string_scope.
#[local] Open Scope list_scope.
#[local] Open Scope Z_scope.

(** ** Go's [int] *)

(** [int] and [int64] are 64-bit two's complement on the platforms the
    program is built for; [int_wrap] is what an addition keeps of its result. *)
Definition int_min : Z := - 2 ^ 63.
Definition int_max : Z := 2 ^ 63 - 1.
Definition int_wrap (z : Z) : Z := (z + 2 ^ 63) mod 2 ^ 64 - 2 ^ 63.
Definition int_add (a b : Z) : Z := int_wrap (a + b).

(** [len] of a slice, as an [int]. *)
Definition len {A} (l : list A) : Z := Z.of_nat (length l).

(** ** Errors and results *)

(** The [error] values of the program: those the library returns, and the
    three the program builds with [fmt.Errorf] (two of them wrap their cause
    with [%w]). *)
Inductive error : Type :=
| LibraryError (msg : string)
| ErrNoPages                               (* "PDF has no pages" *)
| ErrGetPageDict (cause : error)           (* "failed to get page dict: %w" *)
| ErrExtractPage (pageNr : Z) (cause : error).
                            (* "failed to extract images from page %d: %w" *)

(** A Go pair [(v, err)] of which one component is meaningful. *)
Inductive result (A : Type) : Type :=
| Ok (v : A)
| Err (err : error).
Arguments Ok {A} v.
Arguments Err {A} err.

(** How a call of a function of the program ends: it returns [v], or a
    run-time panic (here: a nil pointer dereference) unwinds through it. *)
Inductive outcome (A : Type) : Type :=
| Returns (v : A)
| Panics.
Arguments Returns {A} v.
Arguments Panics {A}.

(** ** Package [types] of the library *)

Module types.

Record IndirectRef : Type := {
  ObjectNumber : Z;
  GenerationNumber : Z
}.

(** The values of the interface [types.Object] the program can meet.  [ONil]
    is the nil interface value (the PDF null object, or what a dangling
    reference dereferences to). *)
#[warnings="-register-all"]
Inductive Object : Type :=
| ONil
| OBoolean (b : bool)
| OInteger (i : Z)
| OName (s : string)
| OStringLiteral (s : string)
| OArray (a : list Object)
| ODict (d : gmap string Object)
| OIndirectRef (ir : IndirectRef).

Abbreviation Dict := (gmap string Object).

Record PDFFilter : Type := {
  Name : string;
  DecodeParms : option Dict
}.

(** [types.StreamDict]: the embedded dictionary, the filters in the order
    they are applied, and the stored (still encoded) bytes.  The other
    fields of the library's struct are not read by the program. *)
Record StreamDict : Type := {
  StreamDict_Dict : Dict;
  FilterPipeline : list PDFFilter;
  Raw : list Byte.byte
}.

(** Modelled from the spec: the typed accessors of the Document Model on
    dictionaries (the library's [Dict.Find], [Dict.IntEntry],
    [Dict.NameEntry] and [Dict.ArrayEntry]): a lookup of the key, then a test
    of the value's type; a missing key and a value of another type both give
    the nil answer. *)
Definition Find (d : Dict) (key : string) : option Object := d !! key.

Definition IntEntry (d : Dict) (key : string) : option Z :=
  match Find d key with
  | Some (OInteger i) => Some i
  | _ => None
  end.

Definition NameEntry (d : Dict) (key : string) : option string :=
  match Find d key with
  | Some (OName s) => Some s
  | _ => None
  end.

Definition ArrayEntry (d : Dict) (key : string) : list Object :=
  match Find d key with
  | Some (OArray a) => a
  | _ => []
  end.

End types.

Import types.

(** ** Package [strings] *)

(** [strings.Join(elems, sep)]. *)
Fixpoint Join (elems : list string) (sep : string) : string :=
  match elems with
  | [] => ""
  | [s] => s
  | s :: rest => String.append s (String.append sep (Join rest sep))
  end.

(** ** Package [model] of the library: the context *)

(** What the program asks of [ctx]: [ctx.XRefTable.PageCount], the three
    lookups of the cross-reference table it calls, and the test
    [StreamDict.Image].  They are the answers of a loaded document.
    [DereferenceXObjectDict] returns a pointer and an error:
    [Ok (Some sd)] is a stream dictionary with a nil error, [Ok None] is the
    nil pointer with a nil error (the library's answer for a reference to a
    missing or free object), [Err err] is an error. *)
Record Context : Type := {
  PageCount : Z;
  PageDict : Z -> result Dict;
  Dereference : IndirectRef -> result Object;
  DereferenceXObjectDict : IndirectRef -> result (option StreamDict);
  Image : StreamDict -> bool
}.

(** A [range] over a Go map visits every entry once, in an order the
    language leaves open and the runtime changes from one loop to the next.
    The order is an argument of the model: a function from the map to the
    sequence of its entries. *)
Definition rangeOrder : Type := Dict -> list (string * Object).

Definition range_ok (range : rangeOrder) : Prop :=
  forall d : Dict, range d ≡ₚ map_to_list d.

(** ** The program *)

Record ImageInfo : Type := {
  PageNr : Z;
  ObjectNr : Z;
  GenNr : Z;
  Name : string;
  Width : Z;
  Height : Z;
  ColorSpace : string;
  BitsPerComp : Z;
  Filter : string;
  Size : Z
}.

Definition set_Width (v : Z) (i : ImageInfo) : ImageInfo :=
  {| PageNr := PageNr i; ObjectNr := ObjectNr i; GenNr := GenNr i;
     Name := Name i; Width := v; Height := Height i;
     ColorSpace := ColorSpace i; BitsPerComp := BitsPerComp i;
     Filter := Filter i; Size := Size i |}.

Definition set_Height (v : Z) (i : ImageInfo) : ImageInfo :=
  {| PageNr := PageNr i; ObjectNr := ObjectNr i; GenNr := GenNr i;
     Name := Name i; Width := Width i; Height := v;
     ColorSpace := ColorSpace i; BitsPerComp := BitsPerComp i;
     Filter := Filter i; Size := Size i |}.

Definition set_ColorSpace (v : string) (i : ImageInfo) : ImageInfo :=
  {| PageNr := PageNr i; ObjectNr := ObjectNr i; GenNr := GenNr i;
     Name := Name i; Width := Width i; Height := Height i;
     ColorSpace := v; BitsPerComp := BitsPerComp i;
     Filter := Filter i; Size := Size i |}.

Definition set_BitsPerComp (v : Z) (i : ImageInfo) : ImageInfo :=
  {| PageNr := PageNr i; ObjectNr := ObjectNr i; GenNr := GenNr i;
     Name := Name i; Width := Width i; Height := Height i;
     ColorSpace := ColorSpace i; BitsPerComp := v;
     Filter := Filter i; Size := Size i |}.

Definition set_Filter (v : string) (i : ImageInfo) : ImageInfo :=
  {| PageNr := PageNr i; ObjectNr := ObjectNr i; GenNr := GenNr i;
     Name := Name i; Width := Width i; Height := Height i;
     ColorSpace := ColorSpace i; BitsPerComp := BitsPerComp i;
     Filter := v; Size := Size i |}.

(** The loop [for _, filter := range sd.FilterPipeline] (a range over a
    slice, in index order), appending to [filters]. *)
Fixpoint appendFilterNames (pipeline : list PDFFilter) (filters : list string)
  : list string :=
  match pipeline with
  | [] => filters
  | filter :: rest => appendFilterNames rest (filters ++ [types.Name filter])
  end.

Definition extractImageInfo (ctx : Context) (pageNr : Z) (name : string)
    (ir : IndirectRef) (sd : StreamDict) : ImageInfo :=
  let imgInfo :=
    {| PageNr := pageNr;
       ObjectNr := ObjectNumber ir;
       GenNr := GenerationNumber ir;
       Name := name;
       Width := 0; Height := 0; ColorSpace := ""; BitsPerComp := 0;
       Filter := "";
       Size := len (Raw sd) |} in
  (* Get Width *)
  let imgInfo :=
    match IntEntry (StreamDict_Dict sd) "Width" with
    | Some width => set_Width width imgInfo
    | None => imgInfo
    end in
  (* Get Height *)
  let imgInfo :=
    match IntEntry (StreamDict_Dict sd) "Height" with
    | Some height => set_Height height imgInfo
    | None => imgInfo
    end in
  (* Get ColorSpace *)
  let imgInfo :=
    match NameEntry (StreamDict_Dict sd) "ColorSpace" with
    | Some cs => set_ColorSpace cs imgInfo
    | None =>
        let csArray := ArrayEntry (StreamDict_Dict sd) "ColorSpace" in
        if 0 <? len csArray then
          match csArray with
          | OName csName :: _ => set_ColorSpace csName imgInfo
          | _ => imgInfo
          end
        else imgInfo
    end in
  (* Get BitsPerComponent *)
  let imgInfo :=
    match IntEntry (StreamDict_Dict sd) "BitsPerComponent" with
    | Some bpc => set_BitsPerComp bpc imgInfo
    | None => imgInfo
    end in
  (* Get Filter *)
  let imgInfo :=
    if 0 <? len (FilterPipeline sd) then
      let filters := appendFilterNames (FilterPipeline sd) [] in
      set_Filter (Join filters ", ") imgInfo
    else imgInfo in
  imgInfo.

(** The loop [for name, obj := range xObject] of [extractImagesFromPage], over
    the entries in the order of this run; each [continue] goes on with
    [images] unchanged.  Only [err] is tested after the dereference: on a nil
    pointer with a nil error the call [xObjDict.Image()] (a method with a
    value receiver) dereferences the nil pointer and panics. *)
Fixpoint rangeXObject (ctx : Context) (pageNr : Z)
    (entries : list (string * Object)) (images : list ImageInfo)
  : outcome (list ImageInfo) :=
  match entries with
  | [] => Returns images
  | (name, obj) :: rest =>
      match obj with
      | OIndirectRef ir =>
          match DereferenceXObjectDict ctx ir with
          | Err _ => rangeXObject ctx pageNr rest images
          | Ok None => Panics
          | Ok (Some xObjDict) =>
              if negb (Image ctx xObjDict) then
                rangeXObject ctx pageNr rest images
              else
                let imgInfo := extractImageInfo ctx pageNr name ir xObjDict in
                rangeXObject ctx pageNr rest (images ++ [imgInfo])
          end
      | _ => rangeXObject ctx pageNr rest images
      end
  end.

(** [extractImagesFromPage].  The two blocks that turn the [Resources] and
    the [XObject] value into a dictionary are written out twice, as in the
    source; [None] is their [return images, nil].  A panic of the loop unwinds
    through the function. *)
Definition extractImagesFromPage (range : rangeOrder) (ctx : Context)
    (pageNr : Z) : outcome (result (list ImageInfo)) :=
  let images : list ImageInfo := [] in
  match PageDict ctx pageNr with
  | Err err => Returns (Err (ErrGetPageDict err))
  | Ok pageDict =>
      match Find pageDict "Resources" with
      | None => Returns (Ok images)
      | Some resources =>
          let resDict : option Dict :=
            match resources with
            | ODict d => Some d
            | OIndirectRef ir =>
                match Dereference ctx ir with
                | Ok obj =>
                    match obj with
                    | ODict d => Some d
                    | _ => None
                    end
                | Err _ => None
                end
            | _ => None
            end in
          match resDict with
          | None => Returns (Ok images)
          | Some resDict =>
              match Find resDict "XObject" with
              | None => Returns (Ok images)
              | Some xObjectDict =>
                  let xObject : option Dict :=
                    match xObjectDict with
                    | ODict d => Some d
                    | OIndirectRef ir =>
                        match Dereference ctx ir with
                        | Ok obj =>
                            match obj with
                            | ODict d => Some d
                            | _ => None
                            end
                        | Err _ => None
                        end
                    | _ => None
                    end in
                  match xObject with
                  | None => Returns (Ok images)
                  | Some xObject =>
                      match rangeXObject ctx pageNr (range xObject) images with
                      | Returns images => Returns (Ok images)
                      | Panics => Panics
                      end
                  end
              end
          end
      end
  end.

(** What a run of [extractAllImages] does, in program order: the calls of
    [extractImagesFromPage] and what is written to the standard output.  The
    text of a line is the business of [fmt]; a line is kept with the values
    it prints. *)
Inductive line : Type :=
| LinePageCount (pageCount : Z)            (* the page count, line 36 *)
| LineRule (c : string)                    (* c + strings.Repeat(c, 80) *)
| LinePageImages (pageNr : Z) (n : Z)      (* page header, line 49 *)
| LineImageInfo (index : Z) (img : ImageInfo)  (* printImageInfo(index, img) *)
| LineTotal (totalImages : Z).             (* the total, line 59 *)

Inductive event : Type :=
| Call_extractImagesFromPage (pageNr : Z)
| Print (l : line).

(** The loop [for i, img := range images { printImageInfo(i+1, img) }]. *)
Fixpoint printImages (i : Z) (images : list ImageInfo) (out : list event)
  : list event :=
  match images with
  | [] => out
  | img :: rest =>
      printImages (int_add i 1) rest (out ++ [Print (LineImageInfo (int_add i 1) img)])
  end.

(** The loop [for pageNr := 1; pageNr <= pageCount; pageNr++] with the state
    it threads: [pageNr], [totalImages] and the events so far.  The result is
    the events and how the call ends (the error returned, or the panic of a
    page scan), or [None] when [fuel] iterations did not end the loop.
    [range pageNr] is the order of the map iteration of that call. *)
Fixpoint pageLoop (fuel : nat) (range : Z -> rangeOrder) (ctx : Context)
    (pageCount pageNr totalImages : Z) (out : list event)
  : option (list event * outcome (option error)) :=
  match fuel with
  | O => None
  | S fuel =>
      if pageNr <=? pageCount then
        let out := out ++ [Call_extractImagesFromPage pageNr] in
        match extractImagesFromPage (range pageNr) ctx pageNr with
        | Panics => Some (out, Panics)
        | Returns (Err err) =>
            Some (out, Returns (Some (ErrExtractPage pageNr err)))
        | Returns (Ok images) =>
            if 0 <? len images then
              let out := out ++ [Print (LinePageImages pageNr (len images));
                                 Print (LineRule "-")] in
              let out := printImages 0 images out in
              let totalImages := int_add totalImages (len images) in
              pageLoop fuel range ctx pageCount (int_add pageNr 1) totalImages out
            else
              pageLoop fuel range ctx pageCount (int_add pageNr 1) totalImages out
        end
      else
        Some (out ++ [Print (LineRule "="); Print (LineTotal totalImages)],
              Returns None)
  end.

Definition extractAllImages (fuel : nat) (range : Z -> rangeOrder)
    (ctx : Context) : option (list event * outcome (option error)) :=
  let pageCount := PageCount ctx in
  if pageCount =? 0 then Some ([], Returns (Some ErrNoPages))
  else
    let out := [Print (LinePageCount pageCount); Print (LineRule "=")] in
    let totalImages := 0 in
    pageLoop fuel range ctx pageCount 1 totalImages out.

(** One turn of the loop on a page that has a dictionary: the events it
    adds and the total it leaves. *)
Definition pageEvents (pageNr : Z) (images : list ImageInfo) : list event :=
  Call_extractImagesFromPage pageNr ::
  if 0 <? len images then
    Print (LinePageImages pageNr (len images)) :: Print (LineRule "-") ::
    printImages 0 images []
  else [].

(** What a trace shows. *)
Definition pagesProcessed (out : list event) : list Z :=
  omap (fun e => match e with
                 | Call_extractImagesFromPage p => Some p
                 | _ => None
                 end) out.

Definition recordsPrinted (out : list event) : list ImageInfo :=
  omap (fun e => match e with
                 | Print (LineImageInfo _ img) => Some img
                 | _ => None
                 end) out.

Definition totalsPrinted (out : list event) : list Z :=
  omap (fun e => match e with
                 | Print (LineTotal t) => Some t
                 | _ => None
                 end) out.

(** ** The components as the specification words them

    The specification describes the page scan as a Resource Resolver, an
    XObject Scanner and an Image Classifier.  These definitions follow its
    words; the theorems below compare them with the code. *)
Module Spec.

(** Direct dictionary, indirect reference resolved by one dereference, or
    absent: a value still unresolved after one hop counts as absent. *)
Definition resolve (ctx : Context) (v : option Object) : option Dict :=
  match v with
  | Some (ODict d) => Some d
  | Some (OIndirectRef ir) =>
      match Dereference ctx ir with
      | Ok (ODict d) => Some d
      | _ => None
      end
  | _ => None
  end.

Definition resolveResources (ctx : Context) (pageDict : Dict) : option Dict :=
  resolve ctx (Find pageDict "Resources").

Definition resolveXObject (ctx : Context) (resources : Dict) : option Dict :=
  resolve ctx (Find resources "XObject").

(** The resolved XObject dictionary of a page, when there is one. *)
Definition pageXObject (ctx : Context) (pageDict : Dict) : option Dict :=
  match resolveResources ctx pageDict with
  | Some resources => resolveXObject ctx resources
  | None => None
  end.

(** The entries of the page's resolved XObject dictionary (none when the
    page has no such dictionary). *)
Definition xobjectEntries (ctx : Context) (pageDict : Dict)
  : list (string * Object) :=
  match pageXObject ctx pageDict with
  | Some xObject => map_to_list xObject
  | None => []
  end.

(** The stream of an entry that counts: the value is an indirect reference,
    it dereferences to a stream dictionary, and the stream passes the image
    test. *)
Definition imageStream (ctx : Context) (obj : Object)
  : option (IndirectRef * StreamDict) :=
  match obj with
  | OIndirectRef ir =>
      match DereferenceXObjectDict ctx ir with
      | Ok (Some sd) => if Image ctx sd then Some (ir, sd) else None
      | _ => None
      end
  | _ => None
  end.

Definition isImageEntry (ctx : Context) (e : string * Object) : Prop :=
  is_Some (imageStream ctx e.2).

#[global] Instance isImageEntry_dec ctx e : Decision (isImageEntry ctx e).
Proof. unfold isImageEntry. apply _. Defined.

(** The record of an entry, when the entry counts. *)
Definition classify (ctx : Context) (pageNr : Z) (e : string * Object)
  : option ImageInfo :=
  match imageStream ctx e.2 with
  | Some (ir, sd) => Some (extractImageInfo ctx pageNr e.1 ir sd)
  | None => None
  end.

End Spec.

(** A value that is neither a dictionary nor an indirect reference. *)
Definition otherValue (o : Object) : Prop :=
  match o with
  | ODict _ | OIndirectRef _ => False
  | _ => True
  end.

Definition notDict (o : Object) : Prop :=
  match o with
  | ODict _ => False
  | _ => True
  end.

Definition notIndirectRef (o : Object) : Prop :=
  match o with
  | OIndirectRef _ => False
  | _ => True
  end.

(** The value of a dictionary entry gives no dictionary: the key is absent,
    the value has another type, or it is an indirect reference whose single
    dereference fails or yields something that is not a dictionary. *)
Inductive givesNoDict (ctx : Context) : option Object -> Prop :=
| gnd_absent : givesNoDict ctx None
| gnd_other o : otherValue o -> givesNoDict ctx (Some o)
| gnd_deref_fails ir err :
    Dereference ctx ir = Err err -> givesNoDict ctx (Some (OIndirectRef ir))
| gnd_deref_not_dict ir o :
    Dereference ctx ir = Ok o -> notDict o ->
    givesNoDict ctx (Some (OIndirectRef ir)).

(** The value of a dictionary entry gives the dictionary [d], directly or by
    one dereference. *)
Inductive givesDict (ctx : Context) : option Object -> Dict -> Prop :=
| gd_direct d : givesDict ctx (Some (ODict d)) d
| gd_indirect ir d :
    Dereference ctx ir = Ok (ODict d) ->
    givesDict ctx (Some (OIndirectRef ir)) d.

(** An entry of an XObject dictionary on which the page scan panics: an
    indirect reference that the table dereferences to the nil pointer with a
    nil error.  A page has such an entry, or has none. *)
Definition nilStreamEntry (ctx : Context) (e : string * Object) : bool :=
  match e.2 with
  | OIndirectRef ir =>
      match DereferenceXObjectDict ctx ir with
      | Ok None => true
      | _ => false
      end
  | _ => false
  end.

Definition pageHasNilStream (ctx : Context) (pageDict : Dict) : bool :=
  existsb (nilStreamEntry ctx) (Spec.xobjectEntries ctx pageDict).

(** The scan of page [p] returns (a list or an error): the table fails to
    produce the page dictionary, or the dictionary has no entry on which the
    scan panics. *)
Definition pageScanReturns (ctx : Context) (p : Z) : Prop :=
  match PageDict ctx p with
  | Ok pageDict => pageHasNilStream ctx pageDict = false
  | Err _ => True
  end.

(** The page has a dictionary and its scan returns a list. *)
Definition pageScanSucceeds (ctx : Context) (p : Z) : Prop :=
  exists pageDict : Dict,
    PageDict ctx p = Ok pageDict /\ pageHasNilStream ctx pageDict = false.

(** The records of page [p] in a run, and the sum of the per-page record
    counts over the pages [pages]. *)
Definition pageImages (range : Z -> rangeOrder) (ctx : Context) (p : Z)
  : list ImageInfo :=
  match extractImagesFromPage (range p) ctx p with
  | Returns (Ok images) => images
  | _ => []
  end.

Fixpoint sumCounts (range : Z -> rangeOrder) (ctx : Context) (pages : list Z)
  : Z :=
  match pages with
  | [] => 0
  | p :: rest => len (pageImages range ctx p) + sumCounts range ctx rest
  end.

(** The pages [1 .. pageCount]. *)
Definition pageNumbers (pageCount : Z) : list Z :=
  seqZ 1 pageCount.

(** ** A sample document

    Three pages.  Page 1 has a direct [Resources] dictionary whose [XObject]
    dictionary holds two images, a form, a direct value and a reference to an
    object that is not a stream (the table answers it with an error); page 2
    reaches its dictionaries through indirect references; page 3 has no
    [Resources].  The image test of the sample asks for the [Type] name
    [XObject] and the [Subtype] name [Image]. *)
Module Sample.

Definition ref (n : Z) : IndirectRef :=
  {| ObjectNumber := n; GenerationNumber := 0 |}.

Definition imageStream : StreamDict :=
  {| StreamDict_Dict :=
       list_to_map [("Type", OName "XObject"); ("Subtype", OName "Image");
                    ("Width", OInteger 640); ("Height", OInteger 480);
                    ("ColorSpace", OName "DeviceRGB");
                    ("BitsPerComponent", OInteger 8)];
     FilterPipeline :=
       [ {| types.Name := "ASCII85Decode"; DecodeParms := None |};
         {| types.Name := "DCTDecode"; DecodeParms := None |} ];
     Raw := [Byte.x01; Byte.x02; Byte.x03] |}.

(** An image with an indexed colour space and nothing else. *)
Definition indexedStream : StreamDict :=
  {| StreamDict_Dict :=
       list_to_map [("Type", OName "XObject"); ("Subtype", OName "Image");
                    ("ColorSpace",
                     OArray [OName "Indexed"; OName "DeviceRGB";
                             OInteger 255; OIndirectRef (ref 12)])];
     FilterPipeline := [];
     Raw := [] |}.

Definition formStream : StreamDict :=
  {| StreamDict_Dict :=
       list_to_map [("Type", OName "XObject"); ("Subtype", OName "Form")];
     FilterPipeline := [];
     Raw := [Byte.x00] |}.

Definition xObject1 : Dict :=
  list_to_map [("Im0", OIndirectRef (ref 5)); ("Fm0", OIndirectRef (ref 6));
               ("Direct", OInteger 3); ("NotAStream", OIndirectRef (ref 9));
               ("Im1", OIndirectRef (ref 10))].

Definition xObject2 : Dict :=
  list_to_map [("Im2", OIndirectRef (ref 5))].

Definition page1 : Dict :=
  list_to_map [("Resources", ODict (list_to_map [("XObject", ODict xObject1)]))].

Definition page2 : Dict :=
  list_to_map [("Resources", OIndirectRef (ref 7))].

Definition page3 : Dict := ∅.

Definition notFound : error := LibraryError "page not found".

Definition ctx : Context :=
  {| PageCount := 3;
     PageDict := fun p =>
       if p =? 1 then Ok page1
       else if p =? 2 then Ok page2
       else if p =? 3 then Ok page3
       else Err notFound;
     Dereference := fun ir =>
       if ObjectNumber ir =? 7 then
         Ok (ODict (list_to_map [("XObject", OIndirectRef (ref 8))]))
       else if ObjectNumber ir =? 8 then Ok (ODict xObject2)
       else Ok ONil;
     DereferenceXObjectDict := fun ir =>
       if ObjectNumber ir =? 5 then Ok (Some imageStream)
       else if ObjectNumber ir =? 10 then Ok (Some indexedStream)
       else if ObjectNumber ir =? 6 then Ok (Some formStream)
       else if ObjectNumber ir =? 9 then Err (LibraryError "wrong type")
       else Ok None;
     Image := fun sd =>
       match NameEntry (StreamDict_Dict sd) "Type",
             NameEntry (StreamDict_Dict sd) "Subtype" with
       | Some "XObject", Some "Image" => true
       | _, _ => false
       end |}.

(** The same document with a second page the table cannot produce. *)
Definition broken : Context :=
  {| PageCount := 3;
     PageDict := fun p => if p =? 2 then Err notFound else PageDict ctx p;
     Dereference := Dereference ctx;
     DereferenceXObjectDict := DereferenceXObjectDict ctx;
     Image := Image ctx |}.

(** Six pages that yield no record, one for each way the [Resources] or the
    [XObject] value gives no dictionary: a value of another type, a reference
    the table cannot dereference, a reference to the null object, a
    [Resources] dictionary without [XObject], an [XObject] of another type,
    and an [XObject] reference that leads to a second reference. *)
Definition bare : Context :=
  {| PageCount := 6;
     PageDict := fun p =>
       if p =? 1 then Ok (list_to_map [("Resources", OInteger 1)])
       else if p =? 2 then Ok (list_to_map [("Resources", OIndirectRef (ref 20))])
       else if p =? 3 then Ok (list_to_map [("Resources", OIndirectRef (ref 21))])
       else if p =? 4 then
         Ok (list_to_map [("Resources", ODict (list_to_map [("Font", ODict ∅)]))])
       else if p =? 5 then
         Ok (list_to_map [("Resources",
                           ODict (list_to_map [("XObject", OName "None")]))])
       else if p =? 6 then
         Ok (list_to_map [("Resources",
                           ODict (list_to_map [("XObject", OIndirectRef (ref 22))]))])
       else Err notFound;
     Dereference := fun ir =>
       if ObjectNumber ir =? 20 then Err (LibraryError "dereference failed")
       else if ObjectNumber ir =? 22 then Ok (OIndirectRef (ref 8))
       else if ObjectNumber ir =? 8 then Ok (ODict xObject2)
       else Ok ONil;
     DereferenceXObjectDict := DereferenceXObjectDict ctx;
     Image := Image ctx |}.

(** A document that declares no page. *)
Definition empty : Context :=
  {| PageCount := 0;
     PageDict := fun _ => Err notFound;
     Dereference := fun _ => Ok ONil;
     DereferenceXObjectDict := fun _ => Ok None;
     Image := fun _ => false |}.

(** Two iteration orders: the order of the map's own listing, and its
    reverse. *)
Definition forwards : rangeOrder := map_to_list.
Definition backwards : rangeOrder := fun d => reverse (map_to_list d).

End Sample.

(** ** The rest of the program: [printImageInfo], [extractImagesFromPDF], [main] *)

(** The lines [printImageInfo] writes, one constructor for each [fmt.Printf]
    of the function (and the closing [fmt.Println]), with the values
    printed. *)
Inductive infoLine : Type :=
| InfoIndex (index : Z)                       (* line 199 *)
| InfoName (name : string)                    (* line 200 *)
| InfoObject (objectNr genNr : Z)             (* line 201 *)
| InfoDimensions (width height : Z)           (* line 202 *)
| InfoColorSpace (colorSpace : string)        (* line 204 *)
| InfoBitsPerComp (bitsPerComp : Z)           (* line 207 *)
| InfoFilter (filter : string)                (* line 210 *)
| InfoSize (size : Z)                         (* line 212 *)
| InfoBlank.                                  (* line 213 *)

(** [printImageInfo(index, img)]: the lines in the order they are written.
    The call is the event [Print (LineImageInfo index img)] of a run. *)
Definition printImageInfo (index : Z) (img : ImageInfo) : list infoLine :=
  [InfoIndex index;
   InfoName (Name img);
   InfoObject (ObjectNr img) (GenNr img);
   InfoDimensions (Width img) (Height img)]
  ++ (if negb (String.eqb (ColorSpace img) "")
      then [InfoColorSpace (ColorSpace img)] else [])
  ++ (if 0 <? BitsPerComp img
      then [InfoBitsPerComp (BitsPerComp img)] else [])
  ++ (if negb (String.eqb (Filter img) "")
      then [InfoFilter (Filter img)] else [])
  ++ [InfoSize (Size img); InfoBlank].

(** The errors [extractImagesFromPDF] builds, each wrapping its cause. *)
Inductive pdfError : Type :=
| ErrReadPDF (cause : error)          (* "failed to read PDF: %w" *)
| ErrExtractImages (cause : error).   (* "failed to extract images: %w" *)

(** What [os.Stat] answers, as far as [os.IsNotExist] tells the answers
    apart: no error, the error of a missing file, another error. *)
Inductive statResult : Type :=
| StatOk
| StatNotExist
| StatOtherError.

Definition IsNotExist (r : statResult) : bool :=
  match r with
  | StatNotExist => true
  | _ => false
  end.

(** What the process finds around it: [os.Args] (the program name first),
    the answers of [os.Stat] and of the library's [api.ReadContextFile]. *)
Record OS : Type := {
  Args : list string;
  Stat : string -> statResult;
  ReadContextFile : string -> result Context
}.

(** The lines [main] writes to the standard output, and the two messages of
    [log.Fatalf]. *)
Inductive mainLine : Type :=
| LineUsage                                 (* line 234 *)
| LineUsageExample                          (* line 235 *)
| LineUsagePurpose                          (* line 236 *)
| LineAnalysing (inputFile : string)        (* line 247 *)
| LineExtracting.                           (* line 248 *)

Inductive fatalMessage : Type :=
| FatalNotExist (inputFile : string)        (* line 244 *)
| FatalFailed (err : pdfError).             (* line 252 *)

(** The events of a run of the whole program, in program order. *)
Inductive mainEvent : Type :=
| Stdout (l : mainLine)
| Call_Stat (path : string)
| Call_ReadContextFile (path : string)
| Scan (e : event)                 (* an event of [extractAllImages] *)
| Fatalf (msg : fatalMessage).     (* written by [log.Fatalf] before it exits *)

(** [extractImagesFromPDF(inputFile)]: the events and how the call ends (the
    error returned, or the panic of the scan); [None] when the fuel of the
    page loop runs out. *)
Definition extractImagesFromPDF (fuel : nat) (range : Z -> rangeOrder)
    (os : OS) (inputFile : string)
  : option (list mainEvent * outcome (option pdfError)) :=
  let out := [Call_ReadContextFile inputFile] in
  match ReadContextFile os inputFile with
  | Err err => Some (out, Returns (Some (ErrReadPDF err)))
  | Ok ctx =>
      match extractAllImages fuel range ctx with
      | None => None
      | Some (events, Panics) => Some (out ++ (Scan <$> events), Panics)
      | Some (events, Returns (Some err)) =>
          Some (out ++ (Scan <$> events),
                Returns (Some (ErrExtractImages err)))
      | Some (events, Returns None) =>
          Some (out ++ (Scan <$> events), Returns None)
      end
  end.

(** [main]: the events and the exit status of the process: 1 after
    [os.Exit(1)] and after [log.Fatalf], 0 when [main] returns, and 2 when a
    panic reaches the top of the goroutine (the Go runtime then writes the
    panic to the standard error and exits with status 2). *)
Definition main (fuel : nat) (range : Z -> rangeOrder) (os : OS)
  : option (list mainEvent * Z) :=
  if len (Args os) <? 2 then
    Some ([Stdout LineUsage; Stdout LineUsageExample; Stdout LineUsagePurpose],
          1)
  else
    match Args os !! 1%nat with
    | None => None   (* an index out of range: excluded by the test above *)
    | Some inputFile =>
        let out := [Call_Stat inputFile] in
        if IsNotExist (Stat os inputFile) then
          Some (out ++ [Fatalf (FatalNotExist inputFile)], 1)
        else
          let out := out ++ [Stdout (LineAnalysing inputFile);
                             Stdout LineExtracting] in
          match extractImagesFromPDF fuel range os inputFile with
          | None => None
          | Some (events, Panics) => Some (out ++ events, 2)
          | Some (events, Returns (Some err)) =>
              Some (out ++ events ++ [Fatalf (FatalFailed err)], 1)
          | Some (events, Returns None) => Some (out ++ events, 0)
          end
    end.

(** What a trace of the whole program shows. *)
Definition filesRead (out : list mainEvent) : list string :=
  omap (fun e => match e with
                 | Call_ReadContextFile path => Some path
                 | _ => None
                 end) out.

Definition scanEvents (out : list mainEvent) : list event :=
  omap (fun e => match e with Scan e => Some e | _ => None end) out.

(** How the page loop ends at a page whose scan does not return a list. *)
Definition stopsWith (m : Z) (r : outcome (result (list ImageInfo)))
  : outcome (option error) :=
  match r with
  | Returns (Err err) => Returns (Some (ErrExtractPage m err))
  | Returns (Ok _) => Returns None
  | Panics => Panics
  end.

(** How [extractImagesFromPDF] ends when the scan ends with [r]. *)
Definition wrapScan (r : outcome (option error)) : outcome (option pdfError) :=
  match r with
  | Returns (Some err) => Returns (Some (ErrExtractImages err))
  | Returns None => Returns None
  | Panics => Panics
  end.

(** Fuel for the page loop on the document of a file: more than its page
    count, which is below the largest [int]. *)
Definition enoughFuel (fuel : nat) (os : OS) (inputFile : string) : Prop :=
  forall ctx, ReadContextFile os inputFile = Ok ctx ->
              PageCount ctx < int_max /\ (Z.to_nat (PageCount ctx) < fuel)%nat.

(** The events of one page in a run, with the records numbered from 1: the
    call, and for a page with records the page header with their count, a
    rule and the records. *)
Definition numbered (images : list ImageInfo) : list event :=
  imap (fun i img => Print (LineImageInfo (Z.of_nat i + 1) img)) images.

Definition pageBlock (pageNr : Z) (images : list ImageInfo) : list event :=
  Call_extractImagesFromPage pageNr ::
  match images with
  | [] => []
  | _ :: _ =>
      Print (LinePageImages pageNr (len images)) :: Print (LineRule "-") ::
      numbered images
  end.

(** The record without its page number. *)
Definition withoutPage (r : ImageInfo)
  : Z * Z * string * Z * Z * string * Z * string * Z :=
  (ObjectNr r, GenNr r, Name r, Width r, Height r, ColorSpace r,
   BitsPerComp r, Filter r, Size r).

(** ** Sample processes *)
Module SampleOS.

Definition readError : error := LibraryError "not a PDF".

(** A document of two pages.  The XObject dictionary of page 1 holds an
    image and a reference to an object the file does not contain: the table
    dereferences it to the nil pointer with a nil error.  Page 2 has no
    [Resources]. *)
Definition xObjectGone : Dict :=
  list_to_map [("Im0", OIndirectRef (Sample.ref 5));
               ("Gone", OIndirectRef (Sample.ref 99))].

Definition pageGone : Dict :=
  list_to_map [("Resources",
                ODict (list_to_map [("XObject", ODict xObjectGone)]))].

Definition dangling : Context :=
  {| PageCount := 2;
     PageDict := fun p =>
       if p =? 1 then Ok pageGone
       else if p =? 2 then Ok ∅
       else Err Sample.notFound;
     Dereference := fun _ => Ok ONil;
     DereferenceXObjectDict := fun ir =>
       if ObjectNumber ir =? 5 then Ok (Some Sample.imageStream)
       else Ok None;
     Image := Image Sample.ctx |}.

Definition os (args : list string) : OS :=
  {| Args := args;
     Stat := fun path =>
       if String.eqb path "missing.pdf" then StatNotExist
       else if String.eqb path "locked.pdf" then StatOtherError
       else StatOk;
     ReadContextFile := fun path =>
       if String.eqb path "scan.pdf" then Ok Sample.ctx
       else if String.eqb path "broken.pdf" then Ok Sample.broken
       else if String.eqb path "empty.pdf" then Ok Sample.empty
       else if String.eqb path "dangling.pdf" then Ok dangling
       else Err readError |}.

(** An image stream with a width, zero bits per component and nothing
    else. *)
Definition bareStream : StreamDict :=
  {| StreamDict_Dict :=
       list_to_map [("Type", OName "XObject"); ("Subtype", OName "Image");
                    ("Width", OInteger 16);
                    ("BitsPerComponent", OInteger 0)];
     FilterPipeline := [];
     Raw := [Byte.x00; Byte.x01] |}.

(** The events of a run over [Sample.broken], whose second page has no
    dictionary. *)
Definition brokenOut : list event :=
  [Print (LinePageCount 3); Print (LineRule "=");
   Call_extractImagesFromPage 1;
   Print (LinePageImages 1 2); Print (LineRule "-");
   Print (LineImageInfo 1
     (extractImageInfo Sample.ctx 1 "Im1" (Sample.ref 10) Sample.indexedStream));
   Print (LineImageInfo 2
     (extractImageInfo Sample.ctx 1 "Im0" (Sample.ref 5) Sample.imageStream));
   Call_extractImagesFromPage 2].

(** A document with a negative declared page count. *)
Definition negative : Context :=
  {| PageCount := -2;
     PageDict := PageDict Sample.ctx;
     Dereference := Dereference Sample.ctx;
     DereferenceXObjectDict := DereferenceXObjectDict Sample.ctx;
     Image := Image Sample.ctx |}.

(** Two pages whose resources are the same dictionary, direct on page 1 and
    behind a reference on page 2. *)
Definition shared : Context :=
  {| PageCount := 2;
     PageDict := fun p =>
       if p =? 1 then
         Ok (list_to_map
               [("Resources",
                 ODict (list_to_map [("XObject", ODict Sample.xObject1)]))])
       else if p =? 2 then
         Ok (list_to_map [("Resources", OIndirectRef (Sample.ref 30))])
       else Err Sample.notFound;
     Dereference := fun ir =>
       if ObjectNumber ir =? 30 then
         Ok (ODict (list_to_map [("XObject", ODict Sample.xObject1)]))
       else Ok ONil;
     DereferenceXObjectDict := DereferenceXObjectDict Sample.ctx;
     Image := Image Sample.ctx |}.

(** The events of the program on the sample document, and on a file
    [os.Stat] cannot examine and the library cannot read. *)
Definition scanOut : list mainEvent :=
  Eval vm_compute in
    match main 4 (fun _ => Sample.forwards) (os ["nbClear"; "scan.pdf"]) with
    | Some (out, _) => out
    | None => []
    end.

Definition lockedOut : list mainEvent :=
  Eval vm_compute in
    match main 4 (fun _ => Sample.forwards)
            (os ["nbClear"; "locked.pdf"; "scan.pdf"]) with
    | Some (out, _) => out
    | None => []
    end.

End SampleOS.

(** * Properties *)

(** ** The page scan and the components of the specification *)

Section page.
Context (ctx : Context) (pageNr : Z).

Lemma classify_entry name obj :
  Spec.classify ctx pageNr (name, obj) =
    match obj with
    | OIndirectRef ir =>
        match DereferenceXObjectDict ctx ir with
        | Ok (Some sd) =>
            if Image ctx sd
            then Some (extractImageInfo ctx pageNr name ir sd)
            else None
        | _ => None
        end
    | _ => None
    end.
Proof.
  unfold Spec.classify, Spec.imageStream; simpl.
  destruct obj as [| | | | | | |ir]; try done.
  destruct (DereferenceXObjectDict ctx ir) as [[sd|]|err]; try done.
  by destruct (Image ctx sd).
Qed.

(** The loop panics exactly when an entry is answered with the nil pointer
    and a nil error; otherwise it returns the records of the entries, in the
    order of the iteration. *)
Lemma rangeXObject_scan entries images :
  rangeXObject ctx pageNr entries images
  = if existsb (nilStreamEntry ctx) entries then Panics
    else Returns (images ++ omap (Spec.classify ctx pageNr) entries).
Proof.
  revert images.
  induction entries as [|[name obj] rest IH]; intros images.
  - simpl. by rewrite app_nil_r.
  - assert (Hcons :
      omap (Spec.classify ctx pageNr) ((name, obj) :: rest)
      = match Spec.classify ctx pageNr (name, obj) with
        | Some r => r :: omap (Spec.classify ctx pageNr) rest
        | None => omap (Spec.classify ctx pageNr) rest
        end) by reflexivity.
    rewrite Hcons, classify_entry. cbn [rangeXObject existsb].
    unfold nilStreamEntry at 1. cbn [snd].
    destruct obj as [| | | | | | |ir]; cbn [orb]; try apply IH.
    destruct (DereferenceXObjectDict ctx ir) as [[sd|]|err];
      cbn [orb]; [|done|apply IH].
    destruct (Image ctx sd); cbn [negb]; [|apply IH].
    rewrite IH. by rewrite <- app_assoc.
Qed.

Lemma resolve_givesDict v d :
  Spec.resolve ctx v = Some d <-> givesDict ctx v d.
Proof.
  split.
  - destruct v as [[| | | | | |d'|ir]|]; simpl; try discriminate.
    + intros [= ->]. constructor.
    + destruct (Dereference ctx ir) as [[| | | | | |d'|]|] eqn:E; try discriminate.
      intros [= ->]. by constructor.
  - intros [d'|ir d' E]; simpl; [done|]. by rewrite E.
Qed.

Lemma resolve_givesNoDict v :
  Spec.resolve ctx v = None <-> givesNoDict ctx v.
Proof.
  split.
  - destruct v as [o|]; [|constructor].
    destruct o as [| | | | | |d'|ir]; simpl; try discriminate;
      try (intros _; by apply gnd_other).
    destruct (Dereference ctx ir) as [o|err] eqn:E.
    + destruct o; try discriminate; intros _;
        by eapply gnd_deref_not_dict.
    + intros _. by eapply gnd_deref_fails.
  - intros [|o Ho|ir err E|ir o E Ho]; simpl; [done| | |].
    + by destruct o.
    + by rewrite E.
    + rewrite E. by destruct o.
Qed.

Lemma extractImagesFromPage_resolved range pageDict :
  PageDict ctx pageNr = Ok pageDict ->
  extractImagesFromPage range ctx pageNr =
    match Spec.pageXObject ctx pageDict with
    | Some xObject =>
        if existsb (nilStreamEntry ctx) (range xObject) then Panics
        else Returns (Ok (omap (Spec.classify ctx pageNr) (range xObject)))
    | None => Returns (Ok [])
    end.
Proof.
  intros Hpage. unfold extractImagesFromPage. rewrite Hpage.
  unfold Spec.pageXObject, Spec.resolveResources, Spec.resolveXObject,
    Spec.resolve.
  assert (Hloop : forall xObject,
    match rangeXObject ctx pageNr (range xObject) [] with
    | Returns images => Returns (Ok images)
    | Panics => Panics
    end
    = if existsb (nilStreamEntry ctx) (range xObject) then Panics
      else Returns (Ok (omap (Spec.classify ctx pageNr) (range xObject)))).
  { intros xObject. rewrite rangeXObject_scan.
    by destruct (existsb (nilStreamEntry ctx) (range xObject)). }
  assert (Hxobject : forall resDict,
    match Find resDict "XObject" with
    | Some xObjectDict =>
        match
          match xObjectDict with
          | ODict d => Some d
          | OIndirectRef ir =>
              match Dereference ctx ir with
              | Ok (ODict d) => Some d
              | _ => None
              end
          | _ => None
          end
        with
        | Some xObject =>
            match rangeXObject ctx pageNr (range xObject) [] with
            | Returns images => Returns (Ok images)
            | Panics => Panics
            end
        | None => Returns (Ok [])
        end
    | None => Returns (Ok [])
    end
    = match
        match Find resDict "XObject" with
        | Some (ODict d) => Some d
        | Some (OIndirectRef ir) =>
            match Dereference ctx ir with
            | Ok (ODict d) => Some d
            | _ => None
            end
        | _ => None
        end
      with
      | Some xObject =>
          if existsb (nilStreamEntry ctx) (range xObject) then Panics
          else Returns (Ok (omap (Spec.classify ctx pageNr) (range xObject)))
      | None => Returns (Ok [])
      end).
  { intros resDict.
    destruct (Find resDict "XObject") as [[| | | | | |xObject|ir]|];
      try reflexivity; [apply Hloop|].
    destruct (Dereference ctx ir) as [[| | | | | |xObject|]|];
      try reflexivity. apply Hloop. }
  destruct (Find pageDict "Resources") as [[| | | | | |resDict|ir]|];
    try reflexivity; [apply Hxobject|].
  destruct (Dereference ctx ir) as [[| | | | | |resDict|]|];
    try reflexivity. apply Hxobject.
Qed.

Lemma existsb_Permutation {A} (f : A -> bool) (l1 l2 : list A) :
  l1 ≡ₚ l2 -> existsb f l1 = existsb f l2.
Proof.
  intros Hperm. induction Hperm as [|x l1 l2 _ IH|x y l|l1 l2 l3 _ IH1 _ IH2];
    simpl; [done|by rewrite IH| |congruence].
  by destruct (f x), (f y).
Qed.

(** With an iteration that visits every entry, whether the scan panics does
    not depend on the order. *)
Lemma extractImagesFromPage_scan range pageDict :
  range_ok range ->
  PageDict ctx pageNr = Ok pageDict ->
  extractImagesFromPage range ctx pageNr =
    if pageHasNilStream ctx pageDict then Panics
    else Returns (Ok (match Spec.pageXObject ctx pageDict with
                      | Some xObject =>
                          omap (Spec.classify ctx pageNr) (range xObject)
                      | None => []
                      end)).
Proof.
  intros Hrange Hpage. rewrite (extractImagesFromPage_resolved _ _ Hpage).
  unfold pageHasNilStream, Spec.xobjectEntries.
  destruct (Spec.pageXObject ctx pageDict) as [xObject|]; [|done].
  by rewrite (existsb_Permutation _ _ _ (Hrange xObject)).
Qed.

(** What a returned list is. *)
Lemma extractImagesFromPage_list range pageDict images :
  PageDict ctx pageNr = Ok pageDict ->
  extractImagesFromPage range ctx pageNr = Returns (Ok images) ->
  images = match Spec.pageXObject ctx pageDict with
           | Some xObject => omap (Spec.classify ctx pageNr) (range xObject)
           | None => []
           end.
Proof.
  intros Hpage. rewrite (extractImagesFromPage_resolved _ _ Hpage).
  destruct (Spec.pageXObject ctx pageDict) as [xObject|]; [|by intros [= <-]].
  destruct (existsb (nilStreamEntry ctx) (range xObject)); [done|].
  by intros [= <-].
Qed.

Lemma extractImagesFromPage_Err range err :
  PageDict ctx pageNr = Err err ->
  extractImagesFromPage range ctx pageNr = Returns (Err (ErrGetPageDict err)).
Proof. intros H. unfold extractImagesFromPage. by rewrite H. Qed.

Lemma extractImagesFromPage_list_page range images :
  extractImagesFromPage range ctx pageNr = Returns (Ok images) ->
  exists pageDict, PageDict ctx pageNr = Ok pageDict.
Proof.
  destruct (PageDict ctx pageNr) as [pageDict|err] eqn:Hpage; [eauto|].
  by rewrite (extractImagesFromPage_Err _ _ Hpage).
Qed.
End page.

Section entries.
Context (ctx : Context) (pageNr : Z).

Lemma classify_Name e r :
  Spec.classify ctx pageNr e = Some r -> Name r = e.1.
Proof.
  unfold Spec.classify.
  destruct (Spec.imageStream ctx e.2) as [[ir sd]|]; [|done].
  intros [= <-]. unfold extractImageInfo.
  repeat case_match; reflexivity.
Qed.

Lemma classify_is_Some e :
  is_Some (Spec.classify ctx pageNr e) <-> Spec.isImageEntry ctx e.
Proof.
  unfold Spec.classify, Spec.isImageEntry.
  destruct (Spec.imageStream ctx e.2) as [[ir sd]|]; split;
    intros [x Hx]; try done; eauto.
Qed.

Lemma names_omap_classify (l : list (string * Object)) :
  Name <$> omap (Spec.classify ctx pageNr) l
  = (filter (Spec.isImageEntry ctx) l).*1.
Proof.
  induction l as [|e l IH]; [done|].
  rewrite filter_cons. simpl.
  destruct (Spec.classify ctx pageNr e) as [r|] eqn:E.
  - rewrite decide_True by (apply classify_is_Some; eauto).
    rewrite !fmap_cons. f_equal; [by apply classify_Name|apply IH].
  - rewrite decide_False; [apply IH|].
    intros H%classify_is_Some. rewrite E in H. by destruct H.
Qed.

End entries.

Lemma range_ok_forwards : range_ok Sample.forwards.
Proof. intros d. reflexivity. Qed.

Lemma range_ok_backwards : range_ok Sample.backwards.
Proof. intros d. unfold Sample.backwards. apply reverse_Permutation. Qed.



Example sample_page1_count :
  pageHasNilStream Sample.ctx Sample.page1 = false /\
  length (filter (Spec.isImageEntry Sample.ctx)
            (Spec.xobjectEntries Sample.ctx Sample.page1)) = 2%nat /\
  Name <$> pageImages (fun _ => Sample.backwards) Sample.ctx 1
  = ["Im0"; "Im1"].
Proof. vm_compute. repeat split. Qed.

(** C2: when the [Resources] entry of the page dictionary gives no dictionary
    (absent, of another type, or a reference whose one dereference fails or
    yields no dictionary), or gives a dictionary whose [XObject] entry gives
    none, the page yields the empty list of records and no error. *)
Theorem no_resources_or_no_xobject_gives_no_record
    (range : rangeOrder) (ctx : Context) (pageNr : Z) (pageDict : Dict) :
  PageDict ctx pageNr = Ok pageDict ->
  givesNoDict ctx (Find pageDict "Resources") \/
  (exists resDict : Dict,
      givesDict ctx (Find pageDict "Resources") resDict /\
      givesNoDict ctx (Find resDict "XObject")) ->
  extractImagesFromPage range ctx pageNr = Returns (Ok []).
Proof.
  intros Hpage Hcase.
  rewrite (extractImagesFromPage_resolved _ _ _ _ Hpage).
  unfold Spec.pageXObject, Spec.resolveResources, Spec.resolveXObject.
  destruct Hcase as [Hno|(resDict & Hres & Hno)].
  - apply resolve_givesNoDict in Hno. by rewrite Hno.
  - apply resolve_givesDict in Hres. apply resolve_givesNoDict in Hno.
    by rewrite Hres, Hno.
Qed.

Lemma no_resources_witness :
  PageDict Sample.ctx 3 = Ok Sample.page3 /\
  extractImagesFromPage Sample.forwards Sample.ctx 3 = Returns (Ok []).
Proof.
  split; [reflexivity|].
  apply (no_resources_or_no_xobject_gives_no_record
           Sample.forwards Sample.ctx 3 Sample.page3); [reflexivity|].
  left. apply gnd_absent.
Defined.

Example bare_pages_yield_nothing :
  extractImagesFromPage Sample.forwards Sample.bare <$> [1; 2; 3; 4; 5; 6]
  = [Returns (Ok []); Returns (Ok []); Returns (Ok []); Returns (Ok []);
     Returns (Ok []); Returns (Ok [])].
Proof. reflexivity. Qed.

(** The reference of page 6 leads to a dictionary only by a second hop, which
    the program does not take. *)
Example second_hop_not_taken :
  givesDict Sample.bare (Some (OIndirectRef (Sample.ref 8))) Sample.xObject2 /\
  givesNoDict Sample.bare (Some (OIndirectRef (Sample.ref 22))).
Proof.
  split.
  - by apply gd_indirect.
  - by apply (gnd_deref_not_dict _ _ (OIndirectRef (Sample.ref 8))).
Qed.

(** C3: an entry of the resolved XObject dictionary whose value is not an
    indirect reference has no record in the page's result. *)
Theorem direct_xobject_entry_gives_no_record
    (range : rangeOrder) (ctx : Context) (pageNr : Z) (pageDict xObject : Dict)
    (images : list ImageInfo) (name : string) (obj : Object) :
  range_ok range ->
  PageDict ctx pageNr = Ok pageDict ->
  Spec.pageXObject ctx pageDict = Some xObject ->
  xObject !! name = Some obj ->
  notIndirectRef obj ->
  extractImagesFromPage range ctx pageNr = Returns (Ok images) ->
  forall r : ImageInfo, r ∈ images -> Name r ≠ name.
Proof.
  intros Hrange Hpage HxObject Hentry Hdirect Himages r Hr Hname.
  apply (extractImagesFromPage_list _ _ _ _ _ Hpage) in Himages.
  rewrite HxObject in Himages. subst images.
  apply list_elem_of_omap in Hr as ([name' obj'] & Hin & Hclass).
  rewrite (Hrange xObject) in Hin. apply elem_of_map_to_list in Hin.
  apply classify_Name in Hclass as Hn. simpl in Hn.
  assert (name' = name) as -> by congruence.
  assert (obj' = obj) as -> by congruence.
  rewrite classify_entry in Hclass. by destruct obj.
Qed.

Lemma direct_xobject_entry_witness :
  Sample.xObject1 !! "Direct" = Some (OInteger 3) /\
  forall r : ImageInfo,
    r ∈ pageImages (fun _ => Sample.forwards) Sample.ctx 1 ->
    Name r ≠ "Direct".
Proof.
  split; [reflexivity|].
  apply (direct_xobject_entry_gives_no_record
           Sample.forwards Sample.ctx 1 Sample.page1 Sample.xObject1
           (pageImages (fun _ => Sample.forwards) Sample.ctx 1)
           "Direct" (OInteger 3));
    [exact range_ok_forwards | reflexivity | reflexivity | reflexivity
    | exact I | reflexivity].
Defined.

(** ** The metadata extractor *)

Lemma extractImageInfo_identity ctx pageNr name ir sd :
  let r := extractImageInfo ctx pageNr name ir sd in
  PageNr r = pageNr /\ ObjectNr r = ObjectNumber ir /\
  GenNr r = GenerationNumber ir /\ Name r = name /\ Size r = len (Raw sd).
Proof. unfold extractImageInfo. repeat case_match; done. Qed.

(** C10: every record returned for page [pageNr] carries that page number,
    the key of an entry of the page's resolved XObject dictionary, the object
    and generation number of that entry's indirect reference, and as [Size]
    the length of the raw bytes of the stream the reference dereferences to,
    which is not negative. *)
Theorem record_identity_invariant
    (range : rangeOrder) (ctx : Context) (pageNr : Z)
    (images : list ImageInfo) (r : ImageInfo) :
  range_ok range ->
  extractImagesFromPage range ctx pageNr = Returns (Ok images) ->
  r ∈ images ->
  PageNr r = pageNr /\
  0 <= Size r /\
  exists (pageDict xObject : Dict) (ir : IndirectRef) (sd : StreamDict),
    PageDict ctx pageNr = Ok pageDict /\
    Spec.pageXObject ctx pageDict = Some xObject /\
    xObject !! Name r = Some (OIndirectRef ir) /\
    DereferenceXObjectDict ctx ir = Ok (Some sd) /\
    Image ctx sd = true /\
    ObjectNr r = ObjectNumber ir /\
    GenNr r = GenerationNumber ir /\
    Size r = Z.of_nat (length (Raw sd)).
Proof.
  intros Hrange Himages Hr.
  destruct (extractImagesFromPage_list_page _ _ _ _ Himages)
    as [pageDict Hpage].
  apply (extractImagesFromPage_list _ _ _ _ _ Hpage) in Himages.
  destruct (Spec.pageXObject ctx pageDict) as [xObject|] eqn:HxObject.
  2:{ subst images. by apply elem_of_nil in Hr. }
  subst images.
  apply list_elem_of_omap in Hr as ([name obj] & Hin & Hclass).
  rewrite (Hrange xObject) in Hin. apply elem_of_map_to_list in Hin.
  rewrite classify_entry in Hclass.
  destruct obj as [| | | | | | |ir]; try done.
  destruct (DereferenceXObjectDict ctx ir) as [[sd|]|] eqn:Hsd; try done.
  destruct (Image ctx sd) eqn:Himg; [|done].
  injection Hclass as <-.
  destruct (extractImageInfo_identity ctx pageNr name ir sd)
    as (HP & HO & HG & HN & HS).
  split; [done|]. split; [rewrite HS; unfold len; lia|].
  exists pageDict, xObject, ir, sd. rewrite HN. by repeat split.
Qed.

Lemma record_identity_witness :
  extractImagesFromPage Sample.backwards Sample.ctx 2
    = Returns
        (Ok [extractImageInfo Sample.ctx 2 "Im2" (Sample.ref 5)
               Sample.imageStream])
  /\
  let r := extractImageInfo Sample.ctx 2 "Im2" (Sample.ref 5) Sample.imageStream in
  PageNr r = 2 /\
  0 <= Size r /\
  exists (pageDict xObject : Dict) (ir : IndirectRef) (sd : StreamDict),
    PageDict Sample.ctx 2 = Ok pageDict /\
    Spec.pageXObject Sample.ctx pageDict = Some xObject /\
    xObject !! Name r = Some (OIndirectRef ir) /\
    DereferenceXObjectDict Sample.ctx ir = Ok (Some sd) /\
    Image Sample.ctx sd = true /\
    ObjectNr r = ObjectNumber ir /\
    GenNr r = GenerationNumber ir /\
    Size r = Z.of_nat (length (Raw sd)).
Proof.
  split; [reflexivity|].
  apply (record_identity_invariant Sample.backwards Sample.ctx 2
           [extractImageInfo Sample.ctx 2 "Im2" (Sample.ref 5) Sample.imageStream]);
    [exact range_ok_backwards | reflexivity | apply list_elem_of_here].
Defined.


Lemma appendFilterNames_fmap pipeline filters :
  appendFilterNames pipeline filters = filters ++ (types.Name <$> pipeline).
Proof.
  revert filters. induction pipeline as [|f rest IH]; intros filters; simpl.
  - by rewrite app_nil_r.
  - rewrite IH. by rewrite <- app_assoc.
Qed.

Lemma extractImageInfo_Filter ctx pageNr name ir sd :
  Filter (extractImageInfo ctx pageNr name ir sd)
  = Join (types.Name <$> FilterPipeline sd) ", ".
Proof.
  unfold extractImageInfo. rewrite appendFilterNames_fmap. simpl.
  destruct (FilterPipeline sd) as [|f rest] eqn:E.
  - simpl. repeat case_match; reflexivity.
  - replace (0 <? len (f :: rest)) with true
      by (symmetry; apply Z.ltb_lt; unfold len; simpl; lia).
    reflexivity.
Qed.

Lemma extractImageInfo_ColorSpace ctx pageNr name ir sd :
  ColorSpace (extractImageInfo ctx pageNr name ir sd)
  = match Find (StreamDict_Dict sd) "ColorSpace" with
    | Some (OName cs) => cs
    | Some (OArray (OName cs :: _)) => cs
    | _ => ""
    end.
Proof.
  unfold extractImageInfo, NameEntry, ArrayEntry.
  destruct (Find (StreamDict_Dict sd) "ColorSpace") as [[| | |cs| |a| |]|];
    try (repeat case_match; reflexivity).
  destruct a as [|[| | |cs| | | |] rest];
    try (repeat case_match; reflexivity).
  replace (0 <? len (OName cs :: rest)) with true
    by (symmetry; apply Z.ltb_lt; unfold len; simpl; lia).
  repeat case_match; reflexivity.
Qed.

(** C4: the colour space of a record is the [ColorSpace] entry of the stream
    dictionary when that is a name, the first element of the entry when the
    entry is an array that starts with a name, and the empty string in every
    other case.  So [/DeviceRGB] gives "DeviceRGB" and
    [[/Indexed /DeviceRGB 255 ref]] gives "Indexed". *)
Theorem colorspace_extraction
    (ctx : Context) (pageNr : Z) (name : string) (ir : IndirectRef) :
  (forall sd : StreamDict,
      ColorSpace (extractImageInfo ctx pageNr name ir sd)
      = match Find (StreamDict_Dict sd) "ColorSpace" with
        | Some (OName cs) => cs
        | Some (OArray (OName cs :: _)) => cs
        | _ => ""
        end) /\
  (forall (d : Dict) (filters : list PDFFilter) (raw : list Byte.byte),
      ColorSpace (extractImageInfo ctx pageNr name ir
        {| StreamDict_Dict := <["ColorSpace" := OName "DeviceRGB"]> d;
           FilterPipeline := filters; Raw := raw |}) = "DeviceRGB") /\
  (forall (d : Dict) (filters : list PDFFilter) (raw : list Byte.byte)
          (lookup : IndirectRef),
      ColorSpace (extractImageInfo ctx pageNr name ir
        {| StreamDict_Dict :=
             <["ColorSpace" := OArray [OName "Indexed"; OName "DeviceRGB";
                                       OInteger 255; OIndirectRef lookup]]> d;
           FilterPipeline := filters; Raw := raw |}) = "Indexed").
Proof.
  split; [apply extractImageInfo_ColorSpace|].
  split; intros; rewrite extractImageInfo_ColorSpace; simpl;
    unfold Find; by rewrite lookup_insert_eq.
Qed.

(** C5: the [Filter] field of a record is the names of the stream's filter
    pipeline, in pipeline order, joined with ", "; it is empty for a stream
    without filters, "DCTDecode" for the pipeline [DCTDecode] and
    "ASCII85Decode, DCTDecode" for [ASCII85Decode, DCTDecode]. *)
Theorem filter_chain_extraction
    (ctx : Context) (pageNr : Z) (name : string) (ir : IndirectRef) :
  (forall sd : StreamDict,
      Filter (extractImageInfo ctx pageNr name ir sd)
      = Join (types.Name <$> FilterPipeline sd) ", ") /\
  (forall (d : Dict) (raw : list Byte.byte),
      Filter (extractImageInfo ctx pageNr name ir
        {| StreamDict_Dict := d; FilterPipeline := []; Raw := raw |}) = "") /\
  (forall (d : Dict) (raw : list Byte.byte) (p : option Dict),
      Filter (extractImageInfo ctx pageNr name ir
        {| StreamDict_Dict := d;
           FilterPipeline := [ {| types.Name := "DCTDecode"; DecodeParms := p |} ];
           Raw := raw |}) = "DCTDecode") /\
  (forall (d : Dict) (raw : list Byte.byte) (p1 p2 : option Dict),
      Filter (extractImageInfo ctx pageNr name ir
        {| StreamDict_Dict := d;
           FilterPipeline :=
             [ {| types.Name := "ASCII85Decode"; DecodeParms := p1 |};
               {| types.Name := "DCTDecode"; DecodeParms := p2 |} ];
           Raw := raw |}) = "ASCII85Decode, DCTDecode").
Proof.
  split; [apply extractImageInfo_Filter|].
  repeat split; intros; by rewrite extractImageInfo_Filter.
Qed.


(** ** The scan of all pages *)

Lemma int_wrap_small z : int_min <= z <= int_max -> int_wrap z = z.
Proof.
  unfold int_min, int_max, int_wrap. intros H.
  rewrite Z.mod_small; lia.
Qed.

Lemma int_wrap_range z : int_min <= int_wrap z <= int_max.
Proof.
  unfold int_min, int_max, int_wrap.
  pose proof (Z.mod_pos_bound (z + 2 ^ 63) (2 ^ 64)). lia.
Qed.

Lemma int_wrap_add_l a b : int_wrap (int_wrap a + b) = int_wrap (a + b).
Proof.
  unfold int_wrap. f_equal.
  replace ((a + 2 ^ 63) mod 2 ^ 64 - 2 ^ 63 + b + 2 ^ 63)
    with ((a + 2 ^ 63) mod 2 ^ 64 + b) by lia.
  rewrite Z.add_mod_idemp_l by lia. f_equal. lia.
Qed.

Lemma int_add_small a b :
  int_min <= a + b <= int_max -> int_add a b = a + b.
Proof. apply int_wrap_small. Qed.

Lemma printImages_app i images out :
  printImages i images out = out ++ printImages i images [].
Proof.
  revert i out. induction images as [|img rest IH]; intros i out; simpl.
  - by rewrite app_nil_r.
  - rewrite (IH _ (out ++ _)), (IH _ [_]). by rewrite <- app_assoc.
Qed.

Lemma printImages_pagesProcessed i images :
  pagesProcessed (printImages i images []) = [].
Proof.
  revert i. induction images as [|img rest IH]; intros i; simpl; [done|].
  rewrite printImages_app. unfold pagesProcessed in *.
  rewrite omap_app. simpl. apply IH.
Qed.

Lemma printImages_totalsPrinted i images :
  totalsPrinted (printImages i images []) = [].
Proof.
  revert i. induction images as [|img rest IH]; intros i; simpl; [done|].
  rewrite printImages_app. unfold totalsPrinted in *.
  rewrite omap_app. simpl. apply IH.
Qed.

Lemma printImages_recordsPrinted i images :
  recordsPrinted (printImages i images []) = images.
Proof.
  revert i. induction images as [|img rest IH]; intros i; simpl; [done|].
  rewrite printImages_app. unfold recordsPrinted in *.
  rewrite omap_app. simpl. f_equal. apply IH.
Qed.

Lemma extractImagesFromPage_Err_iff
    (range : rangeOrder) (ctx : Context) (pageNr : Z) (err : error) :
  extractImagesFromPage range ctx pageNr = Returns (Err err) <->
  exists cause : error,
    PageDict ctx pageNr = Err cause /\ err = ErrGetPageDict cause.
Proof.
  split.
  - destruct (PageDict ctx pageNr) as [pageDict|cause] eqn:Hpage.
    + rewrite (extractImagesFromPage_resolved _ _ _ _ Hpage).
      repeat case_match; done.
    + rewrite (extractImagesFromPage_Err _ _ _ _ Hpage).
      intros [= <-]. eauto.
  - intros (cause & Hpage & ->). by apply extractImagesFromPage_Err.
Qed.

(** A page whose dictionary has no entry answered with a nil stream pointer
    is scanned to a list. *)
Lemma pageScanSucceeds_list (range : rangeOrder) (ctx : Context) (p : Z) :
  range_ok range ->
  pageScanSucceeds ctx p ->
  exists images, extractImagesFromPage range ctx p = Returns (Ok images).
Proof.
  intros Hrange (pageDict & Hpage & Hnil).
  rewrite (extractImagesFromPage_scan _ _ _ _ Hrange Hpage), Hnil. eauto.
Qed.

Lemma pageLoop_step fuel range ctx pageCount pageNr totalImages out images :
  pageNr <= pageCount ->
  extractImagesFromPage (range pageNr) ctx pageNr = Returns (Ok images) ->
  pageLoop (S fuel) range ctx pageCount pageNr totalImages out
  = pageLoop fuel range ctx pageCount (int_add pageNr 1)
      (if 0 <? len images then int_add totalImages (len images)
       else totalImages)
      (out ++ pageEvents pageNr images).
Proof.
  intros Hle Himages. simpl.
  rewrite (proj2 (Z.leb_le _ _) Hle), Himages. unfold pageEvents.
  destruct (0 <? len images).
  - rewrite printImages_app. f_equal.
    rewrite <- !app_assoc. reflexivity.
  - reflexivity.
Qed.

Lemma pageEvents_pagesProcessed pageNr images :
  pagesProcessed (pageEvents pageNr images) = [pageNr].
Proof.
  unfold pageEvents. destruct (0 <? len images); [|done].
  change (pagesProcessed _) with (pageNr :: pagesProcessed (printImages 0 images [])).
  by rewrite printImages_pagesProcessed.
Qed.

Lemma pageEvents_totalsPrinted pageNr images :
  totalsPrinted (pageEvents pageNr images) = [].
Proof.
  unfold pageEvents. destruct (0 <? len images); [|done].
  change (totalsPrinted _) with (totalsPrinted (printImages 0 images [])).
  by rewrite printImages_totalsPrinted.
Qed.

Lemma pageEvents_recordsPrinted pageNr images :
  recordsPrinted (pageEvents pageNr images) = images.
Proof.
  unfold pageEvents. destruct (0 <? len images) eqn:E.
  - change (recordsPrinted _) with (recordsPrinted (printImages 0 images [])).
    by rewrite printImages_recordsPrinted.
  - destruct images; [done|]. apply Z.ltb_ge in E. unfold len in E. simpl in E. lia.
Qed.

Section scan.
Context (range : Z -> rangeOrder) (ctx : Context).

(** The loop stops at the first page that has no dictionary, when the scans
    of the pages before it return. *)
Lemma pageLoop_first_failure (k : nat) :
  forall (fuel : nat) (pageNr totalImages : Z) (out : list event)
         (n : Z) (err : error),
    1 <= pageNr ->
    pageNr + Z.of_nat k = n ->
    n <= PageCount ctx <= int_max ->
    PageDict ctx n = Err err ->
    (forall p, pageNr <= p < n ->
               extractImagesFromPage (range p) ctx p <> Panics) ->
    (k < fuel)%nat ->
    exists (m : Z) (err' : error) (out' : list event),
      pageNr <= m <= n /\
      PageDict ctx m = Err err' /\
      (forall p, pageNr <= p < m -> exists d, PageDict ctx p = Ok d) /\
      pageLoop fuel range ctx (PageCount ctx) pageNr totalImages out
        = Some (out ++ out',
                Returns (Some (ErrExtractPage m (ErrGetPageDict err')))) /\
      pagesProcessed out' = seqZ pageNr (m - pageNr + 1) /\
      totalsPrinted out' = [].
Proof.
  induction k as [|k IH];
    intros fuel pageNr totalImages out n err Hpos Hn Hcount Hfail Hscans Hfuel;
    (destruct fuel as [|fuel]; [lia|]).
  - assert (pageNr = n) as -> by lia.
    exists n, err, [Call_extractImagesFromPage n].
    split; [lia|]. split; [done|]. split; [intros p; lia|].
    split; [|split; [|done]].
    + simpl. rewrite (proj2 (Z.leb_le _ _)) by lia.
      by rewrite (extractImagesFromPage_Err _ _ _ _ Hfail).
    + replace (n - n + 1) with 1 by lia. reflexivity.
  - destruct (extractImagesFromPage (range pageNr) ctx pageNr)
      as [[images|err0]|] eqn:Himages.
    + destruct (extractImagesFromPage_list_page _ _ _ _ Himages)
        as [pageDict Hpage].
      rewrite (pageLoop_step _ _ _ _ _ _ _ images); [|lia|done].
      rewrite (int_add_small pageNr 1) by (unfold int_min, int_max in *; lia).
      destruct (IH fuel (pageNr + 1)
                  (if 0 <? len images then int_add totalImages (len images)
                   else totalImages)
                  (out ++ pageEvents pageNr images) n err)
        as (m & err' & out' & Hm & Hm' & Hbefore & Hrun & Hpages & Htotals);
        [lia|lia|done|done|intros p Hp; apply Hscans; lia|lia|].
      exists m, err', (pageEvents pageNr images ++ out').
      split; [lia|]. split; [done|]. split; [|split; [|split]].
      * intros p Hp. destruct (decide (p = pageNr)) as [->|]; [eauto|].
        apply Hbefore. lia.
      * rewrite Hrun. by rewrite <- app_assoc.
      * unfold pagesProcessed in *. rewrite omap_app.
        fold (pagesProcessed (pageEvents pageNr images)).
        rewrite pageEvents_pagesProcessed, Hpages.
        rewrite (seqZ_cons pageNr) by lia. simpl. do 2 f_equal; lia.
      * unfold totalsPrinted in *. rewrite omap_app.
        fold (totalsPrinted (pageEvents pageNr images)).
        by rewrite pageEvents_totalsPrinted, Htotals.
    + apply extractImagesFromPage_Err_iff in Himages as Hcause.
      destruct Hcause as (cause & Hpage & ->).
      exists pageNr, cause, [Call_extractImagesFromPage pageNr].
      split; [lia|]. split; [done|]. split; [intros p; lia|].
      split; [|split; [|done]].
      * simpl. rewrite (proj2 (Z.leb_le _ _)) by lia.
        by rewrite Himages.
      * replace (pageNr - pageNr + 1) with 1 by lia. reflexivity.
    + exfalso. apply (Hscans pageNr); [lia|done].
Qed.
End scan.

(** C7: when the table fails to produce the dictionary of a page [n] of the
    document, and the scans of the pages before [n] return (none of them
    panics), the run returns an error: the error of the first page [m <= n]
    without a dictionary, wrapped with the message of [extractImagesFromPage]
    and then with the page number [m].  The pages processed are 1..m, no page
    after [m], and no total is printed. *)
Theorem page_dict_failure_aborts_the_scan
    (fuel : nat) (range : Z -> rangeOrder) (ctx : Context)
    (n : Z) (err : error) :
  PageCount ctx <= int_max ->
  1 <= n <= PageCount ctx ->
  PageDict ctx n = Err err ->
  (forall p, 1 <= p < n -> extractImagesFromPage (range p) ctx p <> Panics) ->
  (Z.to_nat n <= fuel)%nat ->
  exists (m : Z) (err' : error) (out : list event),
    1 <= m <= n /\
    PageDict ctx m = Err err' /\
    (forall p, 1 <= p < m -> exists d, PageDict ctx p = Ok d) /\
    extractAllImages fuel range ctx
      = Some (out, Returns (Some (ErrExtractPage m (ErrGetPageDict err')))) /\
    pagesProcessed out = seqZ 1 m /\
    totalsPrinted out = [].
Proof.
  intros Hmax Hn Hfail Hscans Hfuel.
  destruct (pageLoop_first_failure range ctx (Z.to_nat (n - 1)) fuel 1 0
              [Print (LinePageCount (PageCount ctx)); Print (LineRule "=")]
              n err)
    as (m & err' & out' & Hm & Hm' & Hbefore & Hrun & Hpages & Htotals);
    [lia|lia|lia|done|done|lia|].
  exists m, err', ([Print (LinePageCount (PageCount ctx)); Print (LineRule "=")] ++ out').
  split; [done|]. split; [done|]. split; [done|]. split; [|split].
  - unfold extractAllImages.
    rewrite (proj2 (Z.eqb_neq _ _)) by lia. exact Hrun.
  - unfold pagesProcessed in *. rewrite omap_app, Hpages. simpl.
    f_equal. lia.
  - unfold totalsPrinted in *. rewrite omap_app, Htotals. done.
Qed.

Lemma page_dict_failure_witness :
  PageDict Sample.broken 2 = Err Sample.notFound /\
  extractImagesFromPage Sample.forwards Sample.broken 1
  = Returns (Ok (pageImages (fun _ => Sample.forwards) Sample.broken 1)) /\
  exists (m : Z) (err' : error) (out : list event),
    1 <= m <= 2 /\
    PageDict Sample.broken m = Err err' /\
    (forall p, 1 <= p < m -> exists d, PageDict Sample.broken p = Ok d) /\
    extractAllImages 5 (fun _ => Sample.forwards) Sample.broken
      = Some (out, Returns (Some (ErrExtractPage m (ErrGetPageDict err')))) /\
    pagesProcessed out = seqZ 1 m /\
    totalsPrinted out = [].
Proof.
  split; [reflexivity|]. split; [reflexivity|].
  apply (page_dict_failure_aborts_the_scan 5 (fun _ => Sample.forwards)
           Sample.broken 2 Sample.notFound);
    [vm_compute; discriminate | vm_compute; split; discriminate | reflexivity
    | | vm_compute; lia].
  intros p Hp. assert (p = 1) as -> by lia. vm_compute. discriminate.
Defined.

Example broken_scan :
  extractAllImages 5 (fun _ => Sample.forwards) Sample.broken
  = Some (SampleOS.brokenOut,
          Returns (Some (ErrExtractPage 2 (ErrGetPageDict Sample.notFound)))).
Proof. vm_compute. reflexivity. Qed.

Section success.
Context (range : Z -> rangeOrder) (ctx : Context).

Lemma sumCounts_nonneg pages : 0 <= sumCounts range ctx pages.
Proof. induction pages; simpl; unfold len in *; lia. Qed.

(** When every remaining page has a dictionary the loop runs to its end. *)
Lemma pageLoop_success (k : nat) :
  forall (fuel : nat) (pageNr totalImages : Z) (out : list event),
    1 <= pageNr ->
    pageNr + Z.of_nat k = PageCount ctx + 1 ->
    PageCount ctx < int_max ->
    int_min <= totalImages <= int_max ->
    (forall p, pageNr <= p <= PageCount ctx ->
               exists images,
                 extractImagesFromPage (range p) ctx p = Returns (Ok images)) ->
    (k < fuel)%nat ->
    exists out' : list event,
      pageLoop fuel range ctx (PageCount ctx) pageNr totalImages out
        = Some (out ++ out' ++
                  [Print (LineRule "=");
                   Print (LineTotal
                     (int_wrap (totalImages
                        + sumCounts range ctx (seqZ pageNr (Z.of_nat k)))))],
                Returns None) /\
      pagesProcessed out' = seqZ pageNr (Z.of_nat k) /\
      totalsPrinted out' = [] /\
      recordsPrinted out'
        = concat (pageImages range ctx <$> seqZ pageNr (Z.of_nat k)).
Proof.
  induction k as [|k IH];
    intros fuel pageNr totalImages out Hpos Hk Hmax Htotal Hpages Hfuel;
    (destruct fuel as [|fuel]; [lia|]).
  - exists []. split; [|done]. simpl.
    rewrite (proj2 (Z.leb_gt _ _)) by lia.
    by rewrite Z.add_0_r, int_wrap_small.
  - destruct (Hpages pageNr) as [images Himages]; [lia|].
    rewrite (pageLoop_step _ _ _ _ _ _ _ images); [|lia|done].
    rewrite (int_add_small pageNr 1) by (unfold int_min, int_max in *; lia).
    destruct (IH fuel (pageNr + 1)
                (if 0 <? len images then int_add totalImages (len images)
                 else totalImages)
                (out ++ pageEvents pageNr images))
      as (out' & Hrun & Hcalls & Htotals & Hrecords);
      [lia|lia|done| |intros p Hp; apply Hpages; lia|lia|].
    { destruct (0 <? len images); [apply int_wrap_range|done]. }
    exists (pageEvents pageNr images ++ out').
    rewrite (seqZ_cons pageNr (Z.of_nat (S k))) by lia.
    replace (Z.succ pageNr) with (pageNr + 1) by lia.
    replace (Z.pred (Z.of_nat (S k))) with (Z.of_nat k) by lia.
    split; [|split; [|split]].
    + rewrite Hrun, <- !app_assoc. do 4 f_equal. simpl.
      unfold pageImages at 1. rewrite Himages.
      destruct (0 <? len images) eqn:E.
      * unfold int_add. rewrite int_wrap_add_l. by rewrite Z.add_assoc.
      * apply Z.ltb_ge in E.
        replace (len images) with 0 by (unfold len in *; lia). done.
    + unfold pagesProcessed in *. rewrite omap_app.
      fold (pagesProcessed (pageEvents pageNr images)).
      by rewrite pageEvents_pagesProcessed, Hcalls.
    + unfold totalsPrinted in *. rewrite omap_app.
      fold (totalsPrinted (pageEvents pageNr images)).
      by rewrite pageEvents_totalsPrinted, Htotals.
    + unfold recordsPrinted in *. rewrite omap_app.
      fold (recordsPrinted (pageEvents pageNr images)).
      rewrite pageEvents_recordsPrinted, Hrecords. simpl.
      unfold pageImages at 2. by rewrite Himages.
Qed.
End success.

Lemma pageImages_Permutation (range1 range2 : Z -> rangeOrder) ctx p :
  (forall q, range_ok (range1 q)) -> (forall q, range_ok (range2 q)) ->
  pageImages range1 ctx p ≡ₚ pageImages range2 ctx p.
Proof.
  intros H1 H2. unfold pageImages.
  destruct (PageDict ctx p) as [pageDict|err] eqn:Hpage.
  - rewrite (extractImagesFromPage_scan _ _ _ _ (H1 p) Hpage),
      (extractImagesFromPage_scan _ _ _ _ (H2 p) Hpage).
    destruct (pageHasNilStream ctx pageDict); [done|].
    destruct (Spec.pageXObject ctx pageDict) as [xObject|]; [|done].
    by rewrite (H1 p xObject), (H2 p xObject).
  - by rewrite !(extractImagesFromPage_Err _ _ _ _ Hpage).
Qed.

Lemma sumCounts_Permutation (range1 range2 : Z -> rangeOrder) ctx pages :
  (forall q, range_ok (range1 q)) -> (forall q, range_ok (range2 q)) ->
  sumCounts range1 ctx pages = sumCounts range2 ctx pages.
Proof.
  intros H1 H2. induction pages as [|p rest IH]; simpl; [done|].
  rewrite IH. f_equal. unfold len. f_equal.
  apply Permutation_length. by apply pageImages_Permutation.
Qed.

Lemma allImages_Permutation (range1 range2 : Z -> rangeOrder) ctx pages :
  (forall q, range_ok (range1 q)) -> (forall q, range_ok (range2 q)) ->
  concat (pageImages range1 ctx <$> pages)
  ≡ₚ concat (pageImages range2 ctx <$> pages).
Proof.
  intros H1 H2. induction pages as [|p rest IH]; simpl; [done|].
  apply Permutation_app; [by apply pageImages_Permutation|done].
Qed.

Lemma len_allImages range ctx pages :
  len (concat (pageImages range ctx <$> pages)) = sumCounts range ctx pages.
Proof.
  induction pages as [|p rest IH]; [done|].
  rewrite fmap_cons. simpl. rewrite <- IH.
  unfold len. by rewrite length_app, Nat2Z.inj_add.
Qed.

(** A run over a document whose page scans all return a list. *)
Lemma extractAllImages_success (fuel : nat) (range : Z -> rangeOrder)
    (ctx : Context) :
  PageCount ctx <> 0 ->
  PageCount ctx < int_max ->
  (forall p, 1 <= p <= PageCount ctx ->
             exists images,
               extractImagesFromPage (range p) ctx p = Returns (Ok images)) ->
  (Z.to_nat (PageCount ctx) < fuel)%nat ->
  exists out : list event,
    extractAllImages fuel range ctx = Some (out, Returns None) /\
    totalsPrinted out
      = [int_wrap (sumCounts range ctx (pageNumbers (PageCount ctx)))] /\
    pagesProcessed out = pageNumbers (PageCount ctx) /\
    recordsPrinted out
      = concat (pageImages range ctx <$> pageNumbers (PageCount ctx)).
Proof.
  intros Hne Hmax Hpages Hfuel. unfold extractAllImages, pageNumbers.
  rewrite (proj2 (Z.eqb_neq _ _)) by done.
  destruct (decide (0 < PageCount ctx)) as [Hpos|Hneg].
  - destruct (pageLoop_success range ctx (Z.to_nat (PageCount ctx)) fuel 1 0
                [Print (LinePageCount (PageCount ctx)); Print (LineRule "=")])
      as (out' & Hrun & Hcalls & Htotals & Hrecords);
      [lia|lia|done|unfold int_min, int_max; lia|done|done|].
    rewrite Z2Nat.id in * by lia.
    eexists. split; [exact Hrun|].
    unfold totalsPrinted, pagesProcessed, recordsPrinted in *.
    rewrite !omap_app, Htotals, Hcalls, Hrecords. simpl.
    by rewrite !app_nil_r.
  - rewrite (seqZ_nil 1 (PageCount ctx)) by lia.
    destruct fuel as [|fuel]; [lia|]. simpl.
    rewrite (proj2 (Z.leb_gt _ _)) by lia.
    eexists. split; [reflexivity|]. done.
Qed.

(** C6: the metadata extractor has no failure path.  On a page whose scan
    returns (no entry of its XObject dictionary is answered with a nil stream
    pointer), every entry that is an indirect reference to a stream passing
    the image test has its record in the page's result, whatever fields the
    stream lacks; a field missing from the stream dictionary (Width, Height,
    ColorSpace, BitsPerComponent) and an empty filter pipeline leave the
    record's field at 0 or at the empty string. *)
Theorem missing_fields_keep_the_record
    (range : rangeOrder) (ctx : Context) (pageNr : Z) (pageDict xObject : Dict)
    (name : string) (ir : IndirectRef) (sd : StreamDict) :
  range_ok range ->
  PageDict ctx pageNr = Ok pageDict ->
  pageHasNilStream ctx pageDict = false ->
  Spec.pageXObject ctx pageDict = Some xObject ->
  xObject !! name = Some (OIndirectRef ir) ->
  DereferenceXObjectDict ctx ir = Ok (Some sd) ->
  Image ctx sd = true ->
  exists (images : list ImageInfo) (r : ImageInfo),
    extractImagesFromPage range ctx pageNr = Returns (Ok images) /\
    r = extractImageInfo ctx pageNr name ir sd /\
    r ∈ images /\
    (Find (StreamDict_Dict sd) "Width" = None -> Width r = 0) /\
    (Find (StreamDict_Dict sd) "Height" = None -> Height r = 0) /\
    (Find (StreamDict_Dict sd) "ColorSpace" = None -> ColorSpace r = "") /\
    (Find (StreamDict_Dict sd) "BitsPerComponent" = None ->
     BitsPerComp r = 0) /\
    (FilterPipeline sd = [] -> Filter r = "").
Proof.
  intros Hrange Hpage Hnil HxObject Hentry Hsd Himage.
  rewrite (extractImagesFromPage_scan _ _ _ _ Hrange Hpage), Hnil, HxObject.
  eexists _, _. split; [reflexivity|]. split; [reflexivity|].
  split; [|repeat split].
  - apply list_elem_of_omap. exists (name, OIndirectRef ir). split.
    + rewrite (Hrange xObject). by apply elem_of_map_to_list.
    + rewrite classify_entry, Hsd, Himage. reflexivity.
  - intros H. unfold extractImageInfo, IntEntry. rewrite H.
    repeat case_match; reflexivity.
  - intros H. unfold extractImageInfo, IntEntry. rewrite H.
    repeat case_match; reflexivity.
  - intros H. by rewrite extractImageInfo_ColorSpace, H.
  - intros H. unfold extractImageInfo, IntEntry. rewrite H.
    repeat case_match; reflexivity.
  - intros H. by rewrite extractImageInfo_Filter, H.
Qed.

Lemma missing_fields_witness :
  Sample.xObject1 !! "Im1" = Some (OIndirectRef (Sample.ref 10)) /\
  exists (images : list ImageInfo) (r : ImageInfo),
    extractImagesFromPage Sample.forwards Sample.ctx 1 = Returns (Ok images) /\
    r = extractImageInfo Sample.ctx 1 "Im1" (Sample.ref 10) Sample.indexedStream /\
    r ∈ images /\
    (Find (StreamDict_Dict Sample.indexedStream) "Width" = None -> Width r = 0) /\
    (Find (StreamDict_Dict Sample.indexedStream) "Height" = None ->
     Height r = 0) /\
    (Find (StreamDict_Dict Sample.indexedStream) "ColorSpace" = None ->
     ColorSpace r = "") /\
    (Find (StreamDict_Dict Sample.indexedStream) "BitsPerComponent" = None ->
     BitsPerComp r = 0) /\
    (FilterPipeline Sample.indexedStream = [] -> Filter r = "").
Proof.
  split; [reflexivity|].
  apply (missing_fields_keep_the_record Sample.forwards Sample.ctx 1
           Sample.page1 Sample.xObject1 "Im1" (Sample.ref 10)
           Sample.indexedStream);
    [exact range_ok_forwards | reflexivity | reflexivity | reflexivity
    | reflexivity | reflexivity | reflexivity].
Defined.

(** The record of a stream that has none of the fields. *)
Example indexed_record :
  extractImageInfo Sample.ctx 1 "Im1" (Sample.ref 10) Sample.indexedStream
  = {| PageNr := 1; ObjectNr := 10; GenNr := 0; Name := "Im1";
       Width := 0; Height := 0; ColorSpace := "Indexed"; BitsPerComp := 0;
       Filter := ""; Size := 0 |}.
Proof. reflexivity. Qed.

(** C8: a document whose declared page count is 0 makes the run return the
    error "PDF has no pages" with an empty trace: no page has been processed
    and nothing has been printed. *)
Theorem zero_pages_fails_fast
    (fuel : nat) (range : Z -> rangeOrder) (ctx : Context) :
  PageCount ctx = 0 ->
  extractAllImages fuel range ctx = Some ([], Returns (Some ErrNoPages)).
Proof.
  intros H. unfold extractAllImages. by rewrite H.
Qed.

Lemma zero_pages_witness :
  PageCount Sample.empty = 0 /\
  extractAllImages 0 (fun _ => Sample.forwards) Sample.empty
    = Some ([], Returns (Some ErrNoPages)).
Proof.
  split; [reflexivity|].
  apply (zero_pages_fails_fast 0 (fun _ => Sample.forwards) Sample.empty).
  reflexivity.
Defined.

(** C9: on a document whose pages all have a dictionary with no XObject entry
    answered with a nil stream pointer (so that every page scan returns a
    list) the run ends without error and prints one total: the sum over the
    pages 1..pageCount of the per-page record counts (as long as the sum fits
    Go's int), which is also the number of records printed.  Two runs over the same document, whatever
    order their map iterations take, print the same total and the same
    records: the records of each page, and of the whole run, are the same up
    to the order in which the iteration produced them. *)
Theorem total_is_sum_and_scan_is_deterministic
    (fuel1 fuel2 : nat) (range1 range2 : Z -> rangeOrder) (ctx : Context) :
  (forall p, range_ok (range1 p)) ->
  (forall p, range_ok (range2 p)) ->
  PageCount ctx <> 0 ->
  PageCount ctx < int_max ->
  (forall p, 1 <= p <= PageCount ctx -> pageScanSucceeds ctx p) ->
  sumCounts range1 ctx (pageNumbers (PageCount ctx)) <= int_max ->
  (Z.to_nat (PageCount ctx) < fuel1)%nat ->
  (Z.to_nat (PageCount ctx) < fuel2)%nat ->
  exists (out1 out2 : list event) (total : Z),
    extractAllImages fuel1 range1 ctx = Some (out1, Returns None) /\
    extractAllImages fuel2 range2 ctx = Some (out2, Returns None) /\
    totalsPrinted out1 = [total] /\
    totalsPrinted out2 = [total] /\
    total = sumCounts range1 ctx (pageNumbers (PageCount ctx)) /\
    total = sumCounts range2 ctx (pageNumbers (PageCount ctx)) /\
    total = len (recordsPrinted out1) /\
    recordsPrinted out1 ≡ₚ recordsPrinted out2 /\
    (forall p, pageImages range1 ctx p ≡ₚ pageImages range2 ctx p).
Proof.
  intros H1 H2 Hne Hmax Hpages Hsum Hfuel1 Hfuel2.
  assert (Hpages1 : forall p, 1 <= p <= PageCount ctx ->
            exists images,
              extractImagesFromPage (range1 p) ctx p = Returns (Ok images))
    by (intros p Hp; apply pageScanSucceeds_list; [apply H1|by apply Hpages]).
  assert (Hpages2 : forall p, 1 <= p <= PageCount ctx ->
            exists images,
              extractImagesFromPage (range2 p) ctx p = Returns (Ok images))
    by (intros p Hp; apply pageScanSucceeds_list; [apply H2|by apply Hpages]).
  destruct (extractAllImages_success fuel1 range1 ctx Hne Hmax Hpages1 Hfuel1)
    as (out1 & Hrun1 & Htotal1 & _ & Hrecords1).
  destruct (extractAllImages_success fuel2 range2 ctx Hne Hmax Hpages2 Hfuel2)
    as (out2 & Hrun2 & Htotal2 & _ & Hrecords2).
  pose proof (sumCounts_nonneg range1 ctx (pageNumbers (PageCount ctx))) as H0.
  pose proof (sumCounts_Permutation range1 range2 ctx
                (pageNumbers (PageCount ctx)) H1 H2) as Heq.
  exists out1, out2, (sumCounts range1 ctx (pageNumbers (PageCount ctx))).
  split; [done|]. split; [done|].
  split; [|split; [|split; [|split; [|split; [|split]]]]].
  - rewrite Htotal1, int_wrap_small; [done|unfold int_min; lia].
  - rewrite Htotal2, <- Heq, int_wrap_small; [done|unfold int_min; lia].
  - done.
  - done.
  - by rewrite Hrecords1, len_allImages.
  - rewrite Hrecords1, Hrecords2. by apply allImages_Permutation.
  - intros p. by apply pageImages_Permutation.
Qed.

Lemma total_is_sum_witness :
  sumCounts (fun _ => Sample.forwards) Sample.ctx (pageNumbers 3) = 3 /\
  exists (out1 out2 : list event) (total : Z),
    extractAllImages 4 (fun _ => Sample.forwards) Sample.ctx
      = Some (out1, Returns None) /\
    extractAllImages 7 (fun _ => Sample.backwards) Sample.ctx
      = Some (out2, Returns None) /\
    totalsPrinted out1 = [total] /\
    totalsPrinted out2 = [total] /\
    total = sumCounts (fun _ => Sample.forwards) Sample.ctx
              (pageNumbers (PageCount Sample.ctx)) /\
    total = sumCounts (fun _ => Sample.backwards) Sample.ctx
              (pageNumbers (PageCount Sample.ctx)) /\
    total = len (recordsPrinted out1) /\
    recordsPrinted out1 ≡ₚ recordsPrinted out2 /\
    (forall p, pageImages (fun _ => Sample.forwards) Sample.ctx p
               ≡ₚ pageImages (fun _ => Sample.backwards) Sample.ctx p).
Proof.
  split; [reflexivity|].
  apply (total_is_sum_and_scan_is_deterministic 4 7
           (fun _ => Sample.forwards) (fun _ => Sample.backwards) Sample.ctx).
  - intros _. exact range_ok_forwards.
  - intros _. exact range_ok_backwards.
  - discriminate.
  - reflexivity.
  - intros p Hp. simpl in Hp.
    assert (p = 1 \/ p = 2 \/ p = 3) as [->|[->| ->]] by lia;
      eexists; split; reflexivity.
  - vm_compute. discriminate.
  - vm_compute. lia.
  - vm_compute. lia.
Defined.

(** The two orders give the records of page 1 in different orders. *)
Example sample_orders_differ :
  Name <$> pageImages (fun _ => Sample.forwards) Sample.ctx 1 = ["Im1"; "Im0"] /\
  Name <$> pageImages (fun _ => Sample.backwards) Sample.ctx 1 = ["Im0"; "Im1"].
Proof. split; reflexivity. Qed.

Example sample_scan_total :
  totalsPrinted <$> (fst <$> extractAllImages 4 (fun _ => Sample.forwards) Sample.ctx)
  = Some [3].
Proof. vm_compute. reflexivity. Qed.

(** * Further properties of the program *)

(** ** [extractImagesFromPage] *)

(** X1: how a page scan ends, read off the document.  It returns an error
    exactly when the table cannot produce the page dictionary (the cause,
    wrapped once).  With a page dictionary it never returns an error: it
    panics when an entry of the resolved XObject dictionary is answered with
    the nil stream pointer and a nil error, whatever the order of the
    iteration, and it returns a list otherwise (entries answered with an
    error are passed over). *)
Theorem extractImagesFromPage_outcome
    (range : rangeOrder) (ctx : Context) (pageNr : Z) :
  range_ok range ->
  match PageDict ctx pageNr with
  | Err cause =>
      extractImagesFromPage range ctx pageNr
      = Returns (Err (ErrGetPageDict cause))
  | Ok pageDict =>
      if pageHasNilStream ctx pageDict
      then extractImagesFromPage range ctx pageNr = Panics
      else exists images : list ImageInfo,
             extractImagesFromPage range ctx pageNr = Returns (Ok images)
  end.
Proof.
  intros Hrange.
  destruct (PageDict ctx pageNr) as [pageDict|cause] eqn:Hpage.
  - rewrite (extractImagesFromPage_scan _ _ _ _ Hrange Hpage).
    destruct (pageHasNilStream ctx pageDict); eauto.
  - by apply extractImagesFromPage_Err.
Qed.

Lemma extractImagesFromPage_outcome_witness :
  PageDict SampleOS.dangling 1 = Ok SampleOS.pageGone /\
  pageHasNilStream SampleOS.dangling SampleOS.pageGone = true /\
  match PageDict SampleOS.dangling 1 with
  | Err cause =>
      extractImagesFromPage Sample.backwards SampleOS.dangling 1
      = Returns (Err (ErrGetPageDict cause))
  | Ok pageDict =>
      if pageHasNilStream SampleOS.dangling pageDict
      then extractImagesFromPage Sample.backwards SampleOS.dangling 1 = Panics
      else exists images : list ImageInfo,
             extractImagesFromPage Sample.backwards SampleOS.dangling 1
             = Returns (Ok images)
  end.
Proof.
  split; [reflexivity|]. split; [reflexivity|].
  apply (extractImagesFromPage_outcome Sample.backwards SampleOS.dangling 1).
  exact range_ok_backwards.
Defined.

Example dangling_page_panics_in_both_orders :
  extractImagesFromPage Sample.forwards SampleOS.dangling 1 = Panics /\
  extractImagesFromPage Sample.backwards SampleOS.dangling 1 = Panics /\
  extractImagesFromPage Sample.forwards SampleOS.dangling 2 = Returns (Ok []).
Proof. repeat split. Qed.

(** X2: the records of a page come in the order in which the map iteration
    visits the entries of the XObject dictionary.  On a page none of whose
    entries is answered with a nil stream pointer the scan returns a list,
    and the names of its records are the keys of the image entries, in
    iteration order. *)
Theorem records_follow_iteration_order
    (range : rangeOrder) (ctx : Context) (pageNr : Z)
    (pageDict xObject : Dict) :
  range_ok range ->
  PageDict ctx pageNr = Ok pageDict ->
  Spec.pageXObject ctx pageDict = Some xObject ->
  pageHasNilStream ctx pageDict = false ->
  exists images : list ImageInfo,
    extractImagesFromPage range ctx pageNr = Returns (Ok images) /\
    Name <$> images = (filter (Spec.isImageEntry ctx) (range xObject)).*1.
Proof.
  intros Hrange Hpage HxObject Hnil.
  rewrite (extractImagesFromPage_scan _ _ _ _ Hrange Hpage), Hnil, HxObject.
  eexists. split; [reflexivity|]. apply names_omap_classify.
Qed.

Lemma records_follow_iteration_order_witness :
  range_ok Sample.backwards /\
  pageHasNilStream Sample.ctx Sample.page1 = false /\
  exists images : list ImageInfo,
    extractImagesFromPage Sample.backwards Sample.ctx 1
    = Returns (Ok images) /\
    Name <$> images
    = (filter (Spec.isImageEntry Sample.ctx)
         (Sample.backwards Sample.xObject1)).*1.
Proof.
  split; [exact range_ok_backwards|]. split; [reflexivity|].
  apply (records_follow_iteration_order Sample.backwards Sample.ctx 1
           Sample.page1 Sample.xObject1);
    [exact range_ok_backwards | reflexivity | reflexivity | reflexivity].
Defined.

Example sample_page1_backwards :
  Name <$> pageImages (fun _ => Sample.backwards) Sample.ctx 1
  = (filter (Spec.isImageEntry Sample.ctx)
       (Sample.backwards Sample.xObject1)).*1.
Proof. reflexivity. Qed.

(** X3: an entry whose reference the table answers with an error, or whose
    stream does not pass the image test, is passed over.  On a page none of
    whose entries is answered with a nil stream pointer the scan returns a
    list, and the list has no record under the key of such an entry. *)
Theorem unusable_entry_is_skipped
    (range : rangeOrder) (ctx : Context) (pageNr : Z) (pageDict xObject : Dict)
    (name : string) (ir : IndirectRef) :
  range_ok range ->
  PageDict ctx pageNr = Ok pageDict ->
  Spec.pageXObject ctx pageDict = Some xObject ->
  pageHasNilStream ctx pageDict = false ->
  xObject !! name = Some (OIndirectRef ir) ->
  (exists err, DereferenceXObjectDict ctx ir = Err err) \/
  (exists sd, DereferenceXObjectDict ctx ir = Ok (Some sd) /\
              Image ctx sd = false) ->
  exists images : list ImageInfo,
    extractImagesFromPage range ctx pageNr = Returns (Ok images) /\
    forall r : ImageInfo, r ∈ images -> Name r ≠ name.
Proof.
  intros Hrange Hpage HxObject Hnil Hentry Hskip.
  rewrite (extractImagesFromPage_scan _ _ _ _ Hrange Hpage), Hnil, HxObject.
  eexists. split; [reflexivity|]. intros r Hr Hname.
  apply list_elem_of_omap in Hr as ([name' obj'] & Hin & Hclass).
  rewrite (Hrange xObject) in Hin. apply elem_of_map_to_list in Hin.
  apply classify_Name in Hclass as Hn. simpl in Hn.
  assert (name' = name) as -> by congruence.
  assert (obj' = OIndirectRef ir) as -> by congruence.
  rewrite classify_entry in Hclass.
  destruct Hskip as [[err E]|(sd & E & Himg)]; rewrite E in Hclass; [done|].
  by rewrite Himg in Hclass.
Qed.

Lemma unusable_entry_witness :
  Sample.xObject1 !! "NotAStream" = Some (OIndirectRef (Sample.ref 9)) /\
  DereferenceXObjectDict Sample.ctx (Sample.ref 9)
  = Err (LibraryError "wrong type") /\
  exists images : list ImageInfo,
    extractImagesFromPage Sample.forwards Sample.ctx 1
    = Returns (Ok images) /\
    forall r : ImageInfo, r ∈ images -> Name r ≠ "NotAStream".
Proof.
  split; [reflexivity|]. split; [reflexivity|].
  apply (unusable_entry_is_skipped Sample.forwards Sample.ctx 1 Sample.page1
           Sample.xObject1 "NotAStream" (Sample.ref 9));
    [exact range_ok_forwards | reflexivity | reflexivity | reflexivity
    | reflexivity | ].
  left. eexists. reflexivity.
Defined.

Lemma withoutPage_extractImageInfo ctx p1 p2 name ir sd :
  withoutPage (extractImageInfo ctx p1 name ir sd)
  = withoutPage (extractImageInfo ctx p2 name ir sd).
Proof. unfold withoutPage, extractImageInfo. repeat case_match; reflexivity. Qed.

Lemma withoutPage_classify ctx p1 p2 (l : list (string * Object)) :
  withoutPage <$> omap (Spec.classify ctx p1) l
  = withoutPage <$> omap (Spec.classify ctx p2) l.
Proof.
  induction l as [|[name obj] l IH]; [done|].
  assert (Hcons : forall p,
    omap (Spec.classify ctx p) ((name, obj) :: l)
    = match Spec.classify ctx p (name, obj) with
      | Some r => r :: omap (Spec.classify ctx p) l
      | None => omap (Spec.classify ctx p) l
      end) by reflexivity.
  rewrite !Hcons, !classify_entry.
  destruct obj as [| | | | | | |ir]; try apply IH.
  destruct (DereferenceXObjectDict ctx ir) as [[sd|]|]; try apply IH.
  destruct (Image ctx sd); [|apply IH].
  rewrite !fmap_cons, IH. f_equal. apply withoutPage_extractImageInfo.
Qed.

(** X4: an indirection is transparent.  Two pages whose [Resources] values
    give the same dictionary, directly or through a reference, are scanned
    alike when the map iteration takes the same order: either both scans
    panic, or both return a list, and the two lists hold the same records but
    for the page number. *)
Theorem same_resources_same_records
    (range : rangeOrder) (ctx : Context) (p1 p2 : Z)
    (pageDict1 pageDict2 resDict : Dict) :
  PageDict ctx p1 = Ok pageDict1 ->
  PageDict ctx p2 = Ok pageDict2 ->
  givesDict ctx (Find pageDict1 "Resources") resDict ->
  givesDict ctx (Find pageDict2 "Resources") resDict ->
  (extractImagesFromPage range ctx p1 = Panics /\
   extractImagesFromPage range ctx p2 = Panics) \/
  (exists images1 images2 : list ImageInfo,
      extractImagesFromPage range ctx p1 = Returns (Ok images1) /\
      extractImagesFromPage range ctx p2 = Returns (Ok images2) /\
      withoutPage <$> images1 = withoutPage <$> images2).
Proof.
  intros Hpage1 Hpage2 H1%resolve_givesDict H2%resolve_givesDict.
  rewrite (extractImagesFromPage_resolved _ _ _ _ Hpage1),
    (extractImagesFromPage_resolved _ _ _ _ Hpage2).
  unfold Spec.pageXObject, Spec.resolveResources. rewrite H1, H2.
  destruct (Spec.resolveXObject ctx resDict) as [xObject|].
  - destruct (existsb (nilStreamEntry ctx) (range xObject)).
    + by left.
    + right. eexists _, _. split; [reflexivity|]. split; [reflexivity|].
      apply withoutPage_classify.
  - right. by eexists _, _.
Qed.

Lemma same_resources_witness :
  PageCount SampleOS.shared = 2 /\
  ((extractImagesFromPage Sample.forwards SampleOS.shared 1 = Panics /\
    extractImagesFromPage Sample.forwards SampleOS.shared 2 = Panics) \/
   (exists images1 images2 : list ImageInfo,
       extractImagesFromPage Sample.forwards SampleOS.shared 1
       = Returns (Ok images1) /\
       extractImagesFromPage Sample.forwards SampleOS.shared 2
       = Returns (Ok images2) /\
       withoutPage <$> images1 = withoutPage <$> images2)).
Proof.
  split; [reflexivity|].
  eapply (same_resources_same_records Sample.forwards SampleOS.shared 1 2);
    [reflexivity | reflexivity | apply gd_direct | by apply gd_indirect].
Defined.

Example shared_records_are_there :
  length <$> [pageImages (fun _ => Sample.forwards) SampleOS.shared 1;
              pageImages (fun _ => Sample.forwards) SampleOS.shared 2]
  = [2%nat; 2%nat].
Proof. reflexivity. Qed.

(** ** [printImageInfo] *)

Lemma eqb_empty_false (s : string) : s ≠ "" -> String.eqb s "" = false.
Proof. intros H. by apply String.eqb_neq. Qed.

(** X5: [printImageInfo] always writes the index, the name, the object
    numbers, the dimensions, the size and a blank line; it writes the colour
    space only when it is not empty, the bits per component only when they
    are positive, and the filter only when it is not empty. *)
Theorem printImageInfo_lines (index : Z) (img : ImageInfo) :
  (exists optional : list infoLine,
      printImageInfo index img
      = [InfoIndex index; InfoName (Name img);
         InfoObject (ObjectNr img) (GenNr img);
         InfoDimensions (Width img) (Height img)]
        ++ optional ++ [InfoSize (Size img); InfoBlank] /\
      (length optional <= 3)%nat) /\
  (forall cs, InfoColorSpace cs ∈ printImageInfo index img
              <-> cs = ColorSpace img /\ cs ≠ "") /\
  (forall bpc, InfoBitsPerComp bpc ∈ printImageInfo index img
               <-> bpc = BitsPerComp img /\ 0 < bpc) /\
  (forall f, InfoFilter f ∈ printImageInfo index img
             <-> f = Filter img /\ f ≠ "").
Proof.
  split.
  { exists ((if negb (String.eqb (ColorSpace img) "")
             then [InfoColorSpace (ColorSpace img)] else [])
            ++ (if 0 <? BitsPerComp img
                then [InfoBitsPerComp (BitsPerComp img)] else [])
            ++ (if negb (String.eqb (Filter img) "")
                then [InfoFilter (Filter img)] else [])).
    split.
    - unfold printImageInfo. by rewrite <- !app_assoc.
    - destruct (negb _), (0 <? _), (negb _); simpl; lia. }
  unfold printImageInfo.
  destruct (String.eqb_spec (ColorSpace img) "") as [Hcs|Hcs];
    destruct (Z.ltb_spec 0 (BitsPerComp img)) as [Hbpc|Hbpc];
    destruct (String.eqb_spec (Filter img) "") as [Hf|Hf]; simpl;
    repeat split;
    repeat match goal with
           | |- _ ∈ _ -> _ => intros Hin
           | |- _ /\ _ -> _ => intros [-> ?]
           | H : _ ∈ _ :: _ |- _ => apply elem_of_cons in H as [H|H]
           | H : _ ∈ [] |- _ => by apply elem_of_nil in H
           | H : _ = _ |- _ => first [discriminate H | injection H as ->]
           end;
    try done; try lia; try congruence;
    repeat first [apply list_elem_of_here | apply list_elem_of_further].
Qed.

(** X6: the block printed for an image whose stream has no colour space, no
    positive bits per component and no filter is the six fixed lines; missing
    dimensions are printed as 0 x 0, not left out. *)
Theorem bare_stream_prints_six_lines
    (ctx : Context) (pageNr index : Z) (name : string) (ir : IndirectRef)
    (sd : StreamDict) :
  Find (StreamDict_Dict sd) "ColorSpace" = None ->
  (forall bpc, IntEntry (StreamDict_Dict sd) "BitsPerComponent" = Some bpc ->
               bpc <= 0) ->
  FilterPipeline sd = [] ->
  printImageInfo index (extractImageInfo ctx pageNr name ir sd)
  = [InfoIndex index; InfoName name;
     InfoObject (ObjectNumber ir) (GenerationNumber ir);
     InfoDimensions (default 0 (IntEntry (StreamDict_Dict sd) "Width"))
                    (default 0 (IntEntry (StreamDict_Dict sd) "Height"));
     InfoSize (len (Raw sd)); InfoBlank].
Proof.
  intros Hcs Hbpc Hfilters.
  assert (ColorSpace (extractImageInfo ctx pageNr name ir sd) = "") as HC
    by (by rewrite extractImageInfo_ColorSpace, Hcs).
  assert (Filter (extractImageInfo ctx pageNr name ir sd) = "") as HF
    by (by rewrite extractImageInfo_Filter, Hfilters).
  destruct (extractImageInfo_identity ctx pageNr name ir sd)
    as (_ & HO & HG & HN & HS).
  unfold printImageInfo. rewrite HC, HF, HO, HG, HN, HS. simpl.
  assert (Width (extractImageInfo ctx pageNr name ir sd)
          = default 0 (IntEntry (StreamDict_Dict sd) "Width")) as ->
    by (unfold extractImageInfo; repeat case_match; reflexivity).
  assert (Height (extractImageInfo ctx pageNr name ir sd)
          = default 0 (IntEntry (StreamDict_Dict sd) "Height")) as ->
    by (unfold extractImageInfo; repeat case_match; reflexivity).
  assert (BitsPerComp (extractImageInfo ctx pageNr name ir sd)
          = default 0 (IntEntry (StreamDict_Dict sd) "BitsPerComponent")) as ->
    by (unfold extractImageInfo; repeat case_match; reflexivity).
  destruct (IntEntry (StreamDict_Dict sd) "BitsPerComponent") as [bpc|];
    simpl; [|done].
  specialize (Hbpc bpc eq_refl).
  by rewrite (proj2 (Z.ltb_ge _ _)) by done.
Qed.

Lemma bare_stream_witness :
  IntEntry (StreamDict_Dict SampleOS.bareStream) "BitsPerComponent" = Some 0 /\
  printImageInfo 1
    (extractImageInfo Sample.ctx 1 "Im7" (Sample.ref 7) SampleOS.bareStream)
  = [InfoIndex 1; InfoName "Im7";
     InfoObject (ObjectNumber (Sample.ref 7)) (GenerationNumber (Sample.ref 7));
     InfoDimensions
       (default 0 (IntEntry (StreamDict_Dict SampleOS.bareStream) "Width"))
       (default 0 (IntEntry (StreamDict_Dict SampleOS.bareStream) "Height"));
     InfoSize (len (Raw SampleOS.bareStream)); InfoBlank].
Proof.
  split; [reflexivity|].
  apply (bare_stream_prints_six_lines Sample.ctx 1 1 "Im7" (Sample.ref 7)
           SampleOS.bareStream);
    [reflexivity | intros bpc H; vm_compute in H; injection H as <-; lia
    | reflexivity].
Defined.

Example bare_stream_block :
  printImageInfo 1
    (extractImageInfo Sample.ctx 1 "Im7" (Sample.ref 7) SampleOS.bareStream)
  = [InfoIndex 1; InfoName "Im7"; InfoObject 7 0; InfoDimensions 16 0;
     InfoSize 2; InfoBlank].
Proof. reflexivity. Qed.

Example full_stream_prints_nine_lines :
  printImageInfo 2
    (extractImageInfo Sample.ctx 1 "Im0" (Sample.ref 5) Sample.imageStream)
  = [InfoIndex 2; InfoName "Im0"; InfoObject 5 0; InfoDimensions 640 480;
     InfoColorSpace "DeviceRGB"; InfoBitsPerComp 8;
     InfoFilter "ASCII85Decode, DCTDecode"; InfoSize 3; InfoBlank].
Proof. reflexivity. Qed.

(** ** [extractAllImages] *)

Lemma printImages_numbered (images : list ImageInfo) :
  forall i : Z,
    0 <= i -> i + len images <= int_max ->
    printImages i images []
    = imap (fun k img => Print (LineImageInfo (i + Z.of_nat k + 1) img)) images.
Proof.
  induction images as [|img rest IH]; intros i Hi Hmax; [done|].
  unfold len in Hmax. simpl length in Hmax.
  simpl printImages. rewrite printImages_app.
  rewrite int_add_small by (unfold int_min, int_max in *; lia).
  rewrite IH by (unfold len; lia).
  rewrite imap_cons. simpl. f_equal; [do 2 f_equal; lia|].
  apply imap_ext. intros k x _. simpl. do 2 f_equal. lia.
Qed.

Lemma pageEvents_pageBlock (pageNr : Z) (images : list ImageInfo) :
  len images <= int_max -> pageEvents pageNr images = pageBlock pageNr images.
Proof.
  intros Hmax. unfold pageEvents, pageBlock. f_equal.
  destruct images as [|img rest]; [done|].
  replace (0 <? len (img :: rest)) with true
    by (symmetry; apply Z.ltb_lt; unfold len; simpl; lia).
  do 2 f_equal. rewrite printImages_numbered by lia.
  unfold numbered. apply imap_ext. intros k x _. simpl. do 2 f_equal.
Qed.

Section traces.
Context (range : Z -> rangeOrder) (ctx : Context).

(** The events of the pages [pages], page after page, as the loop adds
    them. *)
Lemma pageLoop_success_trace (k : nat) :
  forall (fuel : nat) (pageNr totalImages : Z) (out : list event),
    1 <= pageNr ->
    pageNr + Z.of_nat k = PageCount ctx + 1 ->
    PageCount ctx < int_max ->
    int_min <= totalImages <= int_max ->
    (forall p, pageNr <= p <= PageCount ctx ->
               exists images,
                 extractImagesFromPage (range p) ctx p = Returns (Ok images)) ->
    (k < fuel)%nat ->
    pageLoop fuel range ctx (PageCount ctx) pageNr totalImages out
    = Some (out
            ++ concat ((fun p => pageEvents p (pageImages range ctx p))
                         <$> seqZ pageNr (Z.of_nat k))
            ++ [Print (LineRule "=");
                Print (LineTotal
                  (int_wrap (totalImages
                     + sumCounts range ctx (seqZ pageNr (Z.of_nat k)))))],
            Returns None).
Proof.
  induction k as [|k IH];
    intros fuel pageNr totalImages out Hpos Hk Hmax Htotal Hpages Hfuel;
    (destruct fuel as [|fuel]; [lia|]).
  - simpl. rewrite (proj2 (Z.leb_gt _ _)) by lia.
    by rewrite Z.add_0_r, int_wrap_small.
  - destruct (Hpages pageNr) as [images Himages]; [lia|].
    rewrite (pageLoop_step _ _ _ _ _ _ _ images); [|lia|done].
    rewrite (int_add_small pageNr 1) by (unfold int_min, int_max in *; lia).
    rewrite (IH fuel (pageNr + 1)); [|lia|lia|done| |intros p Hp; apply Hpages; lia|lia].
    2:{ destruct (0 <? len images); [apply int_wrap_range|done]. }
    rewrite (seqZ_cons pageNr (Z.of_nat (S k))) by lia.
    replace (Z.succ pageNr) with (pageNr + 1) by lia.
    replace (Z.pred (Z.of_nat (S k))) with (Z.of_nat k) by lia.
    assert (pageImages range ctx pageNr = images) as HI
      by (unfold pageImages; by rewrite Himages).
    rewrite fmap_cons. cbn [concat sumCounts]. rewrite HI.
    assert (int_wrap ((if 0 <? len images
                       then int_add totalImages (len images)
                       else totalImages)
                      + sumCounts range ctx (seqZ (pageNr + 1) (Z.of_nat k)))
            = int_wrap (totalImages
                        + (len images
                           + sumCounts range ctx
                               (seqZ (pageNr + 1) (Z.of_nat k))))) as ->.
    { destruct (0 <? len images) eqn:E.
      - unfold int_add. rewrite int_wrap_add_l. by rewrite Z.add_assoc.
      - apply Z.ltb_ge in E.
        replace (len images) with 0 by (unfold len in *; lia). done. }
    by rewrite <- !app_assoc.
Qed.

(** The events up to the first page whose scan returns no list. *)
Lemma pageLoop_stop_trace (k : nat) :
  forall (fuel : nat) (pageNr totalImages : Z) (out : list event) (m : Z),
    1 <= pageNr ->
    pageNr + Z.of_nat k = m ->
    m <= PageCount ctx <= int_max ->
    (forall p, pageNr <= p < m ->
               exists images,
                 extractImagesFromPage (range p) ctx p = Returns (Ok images)) ->
    (forall images,
        extractImagesFromPage (range m) ctx m <> Returns (Ok images)) ->
    (k < fuel)%nat ->
    pageLoop fuel range ctx (PageCount ctx) pageNr totalImages out
    = Some (out
            ++ concat ((fun p => pageEvents p (pageImages range ctx p))
                         <$> seqZ pageNr (Z.of_nat k))
            ++ [Call_extractImagesFromPage m],
            stopsWith m (extractImagesFromPage (range m) ctx m)).
Proof.
  induction k as [|k IH];
    intros fuel pageNr totalImages out m Hpos Hk Hmax Hpages Hstop Hfuel;
    (destruct fuel as [|fuel]; [lia|]).
  - assert (pageNr = m) as -> by lia. simpl.
    rewrite (proj2 (Z.leb_le _ _)) by lia.
    destruct (extractImagesFromPage (range m) ctx m) as [[images|err]|] eqn:E;
      [by destruct (Hstop images)|done|done].
  - destruct (Hpages pageNr) as [images Himages]; [lia|].
    rewrite (pageLoop_step _ _ _ _ _ _ _ images); [|lia|done].
    rewrite (int_add_small pageNr 1) by (unfold int_min, int_max in *; lia).
    rewrite (IH fuel (pageNr + 1) _ _ m);
      [|lia|lia|done|intros p Hp; apply Hpages; lia|done|lia].
    rewrite (seqZ_cons pageNr (Z.of_nat (S k))) by lia.
    replace (Z.succ pageNr) with (pageNr + 1) by lia.
    replace (Z.pred (Z.of_nat (S k))) with (Z.of_nat k) by lia.
    assert (pageImages range ctx pageNr = images) as HI
      by (unfold pageImages; by rewrite Himages).
    rewrite fmap_cons. cbn [concat]. rewrite HI.
    by rewrite <- !app_assoc.
Qed.

(** Whatever the loop returns as an error is the error of a page. *)
Lemma pageLoop_error (fuel : nat) :
  forall (pageNr totalImages : Z) (out out' : list event) (err : error),
    pageLoop fuel range ctx (PageCount ctx) pageNr totalImages out
      = Some (out', Returns (Some err)) ->
    exists (m : Z) (cause : error),
      err = ErrExtractPage m (ErrGetPageDict cause) /\
      PageDict ctx m = Err cause /\
      m <= PageCount ctx /\
      last out' = Some (Call_extractImagesFromPage m).
Proof.
  induction fuel as [|fuel IH]; intros pageNr totalImages out out' err;
    [done|]. simpl.
  destruct (Z.leb_spec pageNr (PageCount ctx)) as [Hle|Hgt]; [|done].
  destruct (extractImagesFromPage (range pageNr) ctx pageNr)
    as [[images|err0]|] eqn:Himages; [| |done].
  - destruct (0 <? len images); apply IH.
  - intros [= <- <-].
    apply extractImagesFromPage_Err_iff in Himages
      as (cause & Hpage & ->).
    exists pageNr, cause. repeat split; [done|done|]. apply last_snoc.
Qed.

(** With enough fuel the loop ends, whatever the pages hold. *)
Lemma pageLoop_ends (k : nat) :
  forall (fuel : nat) (pageNr totalImages : Z) (out : list event),
    1 <= pageNr ->
    pageNr + Z.of_nat k = Z.max pageNr (PageCount ctx + 1) ->
    PageCount ctx < int_max ->
    (k < fuel)%nat ->
    exists r, pageLoop fuel range ctx (PageCount ctx) pageNr totalImages out
              = Some r.
Proof.
  induction k as [|k IH];
    intros fuel pageNr totalImages out Hpos Hk Hmax Hfuel;
    (destruct fuel as [|fuel]; [lia|]).
  - simpl. rewrite (proj2 (Z.leb_gt _ _)) by lia. eauto.
  - simpl. rewrite (proj2 (Z.leb_le _ _)) by lia.
    destruct (extractImagesFromPage (range pageNr) ctx pageNr)
      as [[images|err0]|]; [|eauto|eauto].
    rewrite (int_add_small pageNr 1) by (unfold int_min, int_max in *; lia).
    destruct (0 <? len images); apply IH; lia.
Qed.
End traces.

Lemma extractAllImages_ends (fuel : nat) (range : Z -> rangeOrder)
    (ctx : Context) :
  PageCount ctx < int_max ->
  (Z.to_nat (PageCount ctx) < fuel)%nat ->
  exists r, extractAllImages fuel range ctx = Some r.
Proof.
  intros Hmax Hfuel. unfold extractAllImages.
  destruct (PageCount ctx =? 0); [eauto|].
  apply (pageLoop_ends range ctx (Z.to_nat (PageCount ctx))); lia.
Qed.

Lemma len_le_sumCounts range ctx (pages : list Z) (p : Z) :
  p ∈ pages -> len (pageImages range ctx p) <= sumCounts range ctx pages.
Proof.
  induction pages as [|q rest IH]; intros Hin; [by apply elem_of_nil in Hin|].
  apply elem_of_cons in Hin as [->|Hin]; simpl.
  - pose proof (sumCounts_nonneg range ctx rest). lia.
  - specialize (IH Hin). unfold len in *. lia.
Qed.

Lemma recordsPrinted_pages range ctx (pages : list Z) :
  recordsPrinted
    (concat ((fun p => pageEvents p (pageImages range ctx p)) <$> pages))
  = concat (pageImages range ctx <$> pages).
Proof.
  induction pages as [|p rest IH]; [done|].
  rewrite !fmap_cons. cbn [concat]. unfold recordsPrinted in *.
  rewrite omap_app, IH. f_equal. apply pageEvents_recordsPrinted.
Qed.

Lemma totalsPrinted_pages range ctx (pages : list Z) :
  totalsPrinted
    (concat ((fun p => pageEvents p (pageImages range ctx p)) <$> pages))
  = [].
Proof.
  induction pages as [|p rest IH]; [done|].
  rewrite !fmap_cons. cbn [concat]. unfold totalsPrinted in *.
  rewrite omap_app, IH, app_nil_r. apply pageEvents_totalsPrinted.
Qed.

(** X7: the whole output of a run over a document whose pages all have a
    dictionary with no XObject entry answered with a nil stream pointer.  The
    run returns no error; after the page count and a rule, the pages are processed in the order 1..pageCount, each once; a page
    without records writes nothing, a page with records writes a header with
    the number of its records, a rule, and the records numbered from 1 in the
    order [extractImagesFromPage] returned them; the run ends with a rule and
    the total. *)
Theorem successful_run_trace
    (fuel : nat) (range : Z -> rangeOrder) (ctx : Context) :
  (forall p, range_ok (range p)) ->
  PageCount ctx <> 0 ->
  PageCount ctx < int_max ->
  (forall p, 1 <= p <= PageCount ctx -> pageScanSucceeds ctx p) ->
  sumCounts range ctx (pageNumbers (PageCount ctx)) <= int_max ->
  (Z.to_nat (PageCount ctx) < fuel)%nat ->
  extractAllImages fuel range ctx
  = Some ([Print (LinePageCount (PageCount ctx)); Print (LineRule "=")]
          ++ concat ((fun p => pageBlock p (pageImages range ctx p))
                       <$> pageNumbers (PageCount ctx))
          ++ [Print (LineRule "=");
              Print (LineTotal
                       (sumCounts range ctx (pageNumbers (PageCount ctx))))],
          Returns None).
Proof.
  intros Hrange Hne Hmax Hscans Hsum Hfuel.
  assert (Hpages : forall p, 1 <= p <= PageCount ctx ->
            exists images,
              extractImagesFromPage (range p) ctx p = Returns (Ok images))
    by (intros p Hp; apply pageScanSucceeds_list; [apply Hrange|by apply Hscans]).
  pose proof (sumCounts_nonneg range ctx (pageNumbers (PageCount ctx))) as H0.
  assert (Hblocks :
    (fun p => pageEvents p (pageImages range ctx p))
      <$> pageNumbers (PageCount ctx)
    = (fun p => pageBlock p (pageImages range ctx p))
      <$> pageNumbers (PageCount ctx)).
  { apply list_fmap_ext. intros i p Hp. apply pageEvents_pageBlock.
    apply list_elem_of_lookup_2 in Hp.
    pose proof (len_le_sumCounts range ctx _ _ Hp). lia. }
  rewrite <- Hblocks.
  unfold extractAllImages. rewrite (proj2 (Z.eqb_neq _ _)) by done.
  unfold pageNumbers in *.
  destruct (decide (0 < PageCount ctx)) as [Hpos|Hneg].
  - rewrite (pageLoop_success_trace range ctx (Z.to_nat (PageCount ctx)));
      [|lia|lia|done|unfold int_min, int_max; lia|done|done].
    rewrite Z2Nat.id by lia. simpl.
    by rewrite int_wrap_small by (unfold int_min; lia).
  - rewrite (seqZ_nil 1 (PageCount ctx)) by lia.
    destruct fuel as [|fuel]; [lia|]. simpl.
    by rewrite (proj2 (Z.leb_gt _ _)) by lia.
Qed.

Lemma successful_run_trace_witness :
  sumCounts (fun _ => Sample.backwards) Sample.ctx (pageNumbers 3) = 3 /\
  extractAllImages 4 (fun _ => Sample.backwards) Sample.ctx
  = Some ([Print (LinePageCount (PageCount Sample.ctx)); Print (LineRule "=")]
          ++ concat ((fun p => pageBlock p
                                 (pageImages (fun _ => Sample.backwards)
                                    Sample.ctx p))
                       <$> pageNumbers (PageCount Sample.ctx))
          ++ [Print (LineRule "=");
              Print (LineTotal
                       (sumCounts (fun _ => Sample.backwards) Sample.ctx
                          (pageNumbers (PageCount Sample.ctx))))],
          Returns None).
Proof.
  split; [reflexivity|].
  apply (successful_run_trace 4 (fun _ => Sample.backwards) Sample.ctx).
  - intros _. exact range_ok_backwards.
  - discriminate.
  - reflexivity.
  - intros p Hp. simpl in Hp.
    assert (p = 1 \/ p = 2 \/ p = 3) as [->|[->| ->]] by lia;
      eexists; split; reflexivity.
  - vm_compute. discriminate.
  - vm_compute. lia.
Defined.

(** X8: a run that stops at a page without a dictionary, after pages whose
    scans returned their lists, has already written the records of these
    pages: the output of the earlier pages is not taken back, and the failing
    page is the last one processed. *)
Theorem failing_run_keeps_earlier_records
    (fuel : nat) (range : Z -> rangeOrder) (ctx : Context)
    (m : Z) (err : error) :
  (forall p, range_ok (range p)) ->
  1 <= m <= PageCount ctx ->
  PageCount ctx <= int_max ->
  (forall p, 1 <= p < m -> pageScanSucceeds ctx p) ->
  PageDict ctx m = Err err ->
  (Z.to_nat m <= fuel)%nat ->
  exists out : list event,
    extractAllImages fuel range ctx
      = Some (out, Returns (Some (ErrExtractPage m (ErrGetPageDict err)))) /\
    recordsPrinted out = concat (pageImages range ctx <$> seqZ 1 (m - 1)) /\
    last out = Some (Call_extractImagesFromPage m).
Proof.
  intros Hrange Hm Hmax Hscans Hfail Hfuel.
  unfold extractAllImages. rewrite (proj2 (Z.eqb_neq _ _)) by lia.
  rewrite (pageLoop_stop_trace range ctx (Z.to_nat (m - 1)) fuel 1 0 _ m);
    [|lia|lia|lia| | |lia].
  - rewrite (extractImagesFromPage_Err _ _ _ _ Hfail). cbn [stopsWith].
    rewrite Z2Nat.id by lia.
    eexists. split; [reflexivity|]. split.
    + unfold recordsPrinted. rewrite !omap_app.
      fold (recordsPrinted
              (concat ((fun p => pageEvents p (pageImages range ctx p))
                         <$> seqZ 1 (m - 1)))).
      rewrite recordsPrinted_pages. simpl. by rewrite app_nil_r.
    + by rewrite !app_assoc, last_snoc.
  - intros p Hp. apply pageScanSucceeds_list; [apply Hrange|by apply Hscans].
  - intros images. by rewrite (extractImagesFromPage_Err _ _ _ _ Hfail).
Qed.

Lemma failing_run_witness :
  PageDict Sample.broken 2 = Err Sample.notFound /\
  exists out : list event,
    extractAllImages 2 (fun _ => Sample.forwards) Sample.broken
      = Some (out,
              Returns (Some (ErrExtractPage 2 (ErrGetPageDict Sample.notFound))))
    /\
    recordsPrinted out
      = concat (pageImages (fun _ => Sample.forwards) Sample.broken
                  <$> seqZ 1 (2 - 1)) /\
    last out = Some (Call_extractImagesFromPage 2).
Proof.
  split; [reflexivity|].
  apply (failing_run_keeps_earlier_records 2 (fun _ => Sample.forwards)
           Sample.broken 2 Sample.notFound).
  - intros _. exact range_ok_forwards.
  - vm_compute. split; discriminate.
  - vm_compute. discriminate.
  - intros p Hp. assert (p = 1) as -> by lia. eexists. split; reflexivity.
  - reflexivity.
  - vm_compute. lia.
Defined.

Example broken_scan_records :
  Name <$> concat (pageImages (fun _ => Sample.forwards) Sample.broken
                     <$> seqZ 1 (2 - 1))
  = ["Im1"; "Im0"].
Proof. reflexivity. Qed.

Lemma extractAllImages_error_cases
    (fuel : nat) (range : Z -> rangeOrder) (ctx : Context)
    (out : list event) (err : error) :
  extractAllImages fuel range ctx = Some (out, Returns (Some err)) ->
  (err = ErrNoPages /\ PageCount ctx = 0 /\ out = []) \/
  (exists (m : Z) (cause : error),
      err = ErrExtractPage m (ErrGetPageDict cause) /\
      PageDict ctx m = Err cause /\
      m <= PageCount ctx /\
      last out = Some (Call_extractImagesFromPage m)).
Proof.
  unfold extractAllImages.
  destruct (Z.eqb_spec (PageCount ctx) 0) as [Hzero|Hne].
  - intros [= <- <-]. by left.
  - intros Hrun. right. by apply pageLoop_error in Hrun.
Qed.

(** X9: the only errors [extractAllImages] returns.  Either the document
    declares 0 pages and nothing has happened, or the error is that of a page
    [m] whose dictionary the table could not produce, wrapped with [m], and
    the call for page [m] is the last event of the run. *)
Theorem extractAllImages_errors
    (fuel : nat) (range : Z -> rangeOrder) (ctx : Context)
    (out : list event) (err : error) :
  extractAllImages fuel range ctx = Some (out, Returns (Some err)) ->
  (err = ErrNoPages /\ PageCount ctx = 0 /\ out = []) \/
  (exists (m : Z) (cause : error),
      err = ErrExtractPage m (ErrGetPageDict cause) /\
      PageDict ctx m = Err cause /\
      m <= PageCount ctx /\
      last out = Some (Call_extractImagesFromPage m)).
Proof.
  unfold extractAllImages.
  destruct (Z.eqb_spec (PageCount ctx) 0) as [Hzero|Hne].
  - intros [= <- <-]. by left.
  - intros Hrun. right. by apply pageLoop_error in Hrun.
Qed.

Lemma extractAllImages_errors_witness :
  extractAllImages 5 (fun _ => Sample.forwards) Sample.broken
  = Some (SampleOS.brokenOut,
          Returns (Some (ErrExtractPage 2 (ErrGetPageDict Sample.notFound)))) /\
  ((ErrExtractPage 2 (ErrGetPageDict Sample.notFound) = ErrNoPages /\
    PageCount Sample.broken = 0 /\ SampleOS.brokenOut = []) \/
   (exists (m : Z) (cause : error),
       ErrExtractPage 2 (ErrGetPageDict Sample.notFound)
       = ErrExtractPage m (ErrGetPageDict cause) /\
       PageDict Sample.broken m = Err cause /\
       m <= PageCount Sample.broken /\
       last SampleOS.brokenOut = Some (Call_extractImagesFromPage m))).
Proof.
  split; [exact broken_scan|].
  apply (extractAllImages_errors 5 (fun _ => Sample.forwards) Sample.broken).
  exact broken_scan.
Defined.

(** X10: only a page count of exactly 0 is refused.  A negative declared page
    count is not an error: the loop body never runs, no page is asked for,
    and the run reports a total of 0. *)
Theorem negative_page_count_reports_zero
    (fuel : nat) (range : Z -> rangeOrder) (ctx : Context) :
  PageCount ctx < 0 ->
  extractAllImages (S fuel) range ctx
  = Some ([Print (LinePageCount (PageCount ctx)); Print (LineRule "=");
           Print (LineRule "="); Print (LineTotal 0)], Returns None).
Proof.
  intros Hneg. unfold extractAllImages.
  rewrite (proj2 (Z.eqb_neq _ _)) by lia. simpl.
  by rewrite (proj2 (Z.leb_gt _ _)) by lia.
Qed.

Lemma negative_page_count_witness :
  PageCount SampleOS.negative < 0 /\
  extractAllImages 1 (fun _ => Sample.forwards) SampleOS.negative
  = Some ([Print (LinePageCount (PageCount SampleOS.negative));
           Print (LineRule "=");
           Print (LineRule "="); Print (LineTotal 0)], Returns None).
Proof.
  split; [reflexivity|].
  apply (negative_page_count_reports_zero 0 (fun _ => Sample.forwards)
           SampleOS.negative).
  reflexivity.
Defined.

(** X16: a reference to a missing object stops the run with a panic.  When
    the first page whose XObject dictionary has an entry answered with the
    nil stream pointer and a nil error is page [m], and the pages before it
    are scanned to their lists, the run panics in the scan of page [m]: it
    returns nothing, the records of the earlier pages have been written, the
    call for page [m] is the last event, and no total is printed. *)
Theorem nil_stream_panics_the_run
    (fuel : nat) (range : Z -> rangeOrder) (ctx : Context)
    (m : Z) (pageDict : Dict) :
  (forall p, range_ok (range p)) ->
  1 <= m <= PageCount ctx ->
  PageCount ctx <= int_max ->
  (forall p, 1 <= p < m -> pageScanSucceeds ctx p) ->
  PageDict ctx m = Ok pageDict ->
  pageHasNilStream ctx pageDict = true ->
  (Z.to_nat m <= fuel)%nat ->
  exists out : list event,
    extractAllImages fuel range ctx = Some (out, Panics) /\
    recordsPrinted out = concat (pageImages range ctx <$> seqZ 1 (m - 1)) /\
    last out = Some (Call_extractImagesFromPage m) /\
    totalsPrinted out = [].
Proof.
  intros Hrange Hm Hmax Hscans Hpage Hnil Hfuel.
  assert (Hpanic : extractImagesFromPage (range m) ctx m = Panics)
    by (by rewrite (extractImagesFromPage_scan _ _ _ _ (Hrange m) Hpage), Hnil).
  unfold extractAllImages. rewrite (proj2 (Z.eqb_neq _ _)) by lia.
  rewrite (pageLoop_stop_trace range ctx (Z.to_nat (m - 1)) fuel 1 0 _ m);
    [|lia|lia|lia| | |lia].
  - rewrite Hpanic. cbn [stopsWith]. rewrite Z2Nat.id by lia.
    eexists. split; [reflexivity|]. split; [|split].
    + unfold recordsPrinted. rewrite !omap_app.
      fold (recordsPrinted
              (concat ((fun p => pageEvents p (pageImages range ctx p))
                         <$> seqZ 1 (m - 1)))).
      rewrite recordsPrinted_pages. simpl. by rewrite app_nil_r.
    + by rewrite !app_assoc, last_snoc.
    + unfold totalsPrinted. rewrite !omap_app.
      fold (totalsPrinted
              (concat ((fun p => pageEvents p (pageImages range ctx p))
                         <$> seqZ 1 (m - 1)))).
      rewrite totalsPrinted_pages. done.
  - intros p Hp. apply pageScanSucceeds_list; [apply Hrange|by apply Hscans].
  - intros images. by rewrite Hpanic.
Qed.

Lemma nil_stream_panics_witness :
  PageDict SampleOS.dangling 1 = Ok SampleOS.pageGone /\
  pageHasNilStream SampleOS.dangling SampleOS.pageGone = true /\
  exists out : list event,
    extractAllImages 1 (fun _ => Sample.forwards) SampleOS.dangling
    = Some (out, Panics) /\
    recordsPrinted out
    = concat (pageImages (fun _ => Sample.forwards) SampleOS.dangling
                <$> seqZ 1 (1 - 1)) /\
    last out = Some (Call_extractImagesFromPage 1) /\
    totalsPrinted out = [].
Proof.
  split; [reflexivity|]. split; [reflexivity|].
  apply (nil_stream_panics_the_run 1 (fun _ => Sample.forwards)
           SampleOS.dangling 1 SampleOS.pageGone).
  - intros _. exact range_ok_forwards.
  - vm_compute. split; discriminate.
  - vm_compute. discriminate.
  - intros p Hp. lia.
  - reflexivity.
  - reflexivity.
  - vm_compute. lia.
Defined.

Example dangling_run :
  extractAllImages 5 (fun _ => Sample.forwards) SampleOS.dangling
  = Some ([Print (LinePageCount 2); Print (LineRule "=");
           Call_extractImagesFromPage 1], Panics).
Proof. reflexivity. Qed.

(** ** [extractImagesFromPDF] and [main] *)

Lemma scanEvents_Scan (events : list event) :
  scanEvents (Scan <$> events) = events.
Proof.
  unfold scanEvents. induction events as [|e l IH]; [done|]. simpl. by f_equal.
Qed.

Lemma filesRead_Scan (events : list event) : filesRead (Scan <$> events) = [].
Proof. unfold filesRead. induction events as [|e l IH]; [done|]. done. Qed.

Lemma filesRead_read (path : string) (l : list mainEvent) :
  filesRead (Call_ReadContextFile path :: l) = path :: filesRead l.
Proof. reflexivity. Qed.

Lemma scanEvents_read (path : string) (l : list mainEvent) :
  scanEvents (Call_ReadContextFile path :: l) = scanEvents l.
Proof. reflexivity. Qed.

Lemma zero_pages_run fuel range ctx :
  PageCount ctx = 0 ->
  extractAllImages fuel range ctx = Some ([], Returns (Some ErrNoPages)).
Proof. intros H. unfold extractAllImages. by rewrite H. Qed.

Lemma last_after {A} (x : A) (l1 l2 : list A) :
  last (l1 ++ l2 ++ [x]) = Some x.
Proof. by rewrite app_assoc, last_snoc. Qed.

Lemma second_argument (args : list string) :
  (len args <? 2) = false -> exists inputFile, args !! 1%nat = Some inputFile.
Proof.
  intros H%Z.ltb_ge. destruct args as [|a [|b rest]]; unfold len in H;
    simpl in H; try lia. eauto.
Qed.

Lemma no_second_argument (args : list string) :
  (len args <? 2) = true -> args !! 1%nat = None.
Proof.
  intros H%Z.ltb_lt. destruct args as [|a [|b rest]]; unfold len in H;
    simpl in H; try lia; done.
Qed.

(** How [extractImagesFromPDF] ends, from how the scan ends. *)
Lemma extractImagesFromPDF_read
    (fuel : nat) (range : Z -> rangeOrder) (os : OS) (inputFile : string)
    (ctx : Context) (events : list event) (r : outcome (option error)) :
  ReadContextFile os inputFile = Ok ctx ->
  extractAllImages fuel range ctx = Some (events, r) ->
  extractImagesFromPDF fuel range os inputFile
  = Some (Call_ReadContextFile inputFile :: (Scan <$> events), wrapScan r).
Proof.
  intros Hread Hscan. unfold extractImagesFromPDF. rewrite Hread, Hscan.
  by destruct r as [[err|]|].
Qed.

Lemma extractImagesFromPDF_unreadable
    (fuel : nat) (range : Z -> rangeOrder) (os : OS) (inputFile : string)
    (cause : error) :
  ReadContextFile os inputFile = Err cause ->
  extractImagesFromPDF fuel range os inputFile
  = Some ([Call_ReadContextFile inputFile], Returns (Some (ErrReadPDF cause))).
Proof. intros Hread. unfold extractImagesFromPDF. by rewrite Hread. Qed.

(** With enough fuel for the pages of the file, the call ends. *)
Lemma extractImagesFromPDF_ends
    (fuel : nat) (range : Z -> rangeOrder) (os : OS) (inputFile : string) :
  enoughFuel fuel os inputFile ->
  exists out r,
    extractImagesFromPDF fuel range os inputFile = Some (out, r) /\
    filesRead out = [inputFile].
Proof.
  intros Hfuel.
  destruct (ReadContextFile os inputFile) as [ctx|cause] eqn:Hread.
  - destruct (Hfuel ctx Hread) as [Hmax Hk].
    destruct (extractAllImages_ends fuel range ctx Hmax Hk)
      as [[events r] Hscan].
    rewrite (extractImagesFromPDF_read _ _ _ _ _ _ _ Hread Hscan).
    eexists _, _. split; [reflexivity|].
    by rewrite filesRead_read, filesRead_Scan.
  - rewrite (extractImagesFromPDF_unreadable _ _ _ _ _ Hread).
    by eexists _, _.
Qed.

(** X11: what [extractImagesFromPDF] returns.  Given fuel for the pages of
    the file, the call ends, and it has read the one file it is given.  When
    the file cannot be read it returns the cause wrapped as a read failure
    and no page has been scanned; otherwise the events are those of
    [extractAllImages] on the document, unchanged, and the call ends as the
    scan does: with its error wrapped as an extraction failure, with no
    error, or with its panic. *)
Theorem extractImagesFromPDF_result
    (fuel : nat) (range : Z -> rangeOrder) (os : OS) (inputFile : string) :
  enoughFuel fuel os inputFile ->
  exists (out : list mainEvent) (r : outcome (option pdfError)),
    extractImagesFromPDF fuel range os inputFile = Some (out, r) /\
    filesRead out = [inputFile] /\
    match ReadContextFile os inputFile with
    | Err cause => r = Returns (Some (ErrReadPDF cause)) /\ scanEvents out = []
    | Ok ctx =>
        exists (events : list event) (scan : outcome (option error)),
          extractAllImages fuel range ctx = Some (events, scan) /\
          scanEvents out = events /\
          r = match scan with
              | Returns scanErr => Returns (ErrExtractImages <$> scanErr)
              | Panics => Panics
              end
    end.
Proof.
  intros Hfuel.
  destruct (ReadContextFile os inputFile) as [ctx|cause] eqn:Hread.
  - destruct (Hfuel ctx Hread) as [Hmax Hk].
    destruct (extractAllImages_ends fuel range ctx Hmax Hk)
      as [[events r] Hscan].
    rewrite (extractImagesFromPDF_read _ _ _ _ _ _ _ Hread Hscan).
    eexists _, _. split; [reflexivity|].
    rewrite filesRead_read, scanEvents_read, filesRead_Scan, scanEvents_Scan.
    split; [done|]. exists events, r. by destruct r as [[err|]|].
  - rewrite (extractImagesFromPDF_unreadable _ _ _ _ _ Hread).
    by eexists _, _.
Qed.

Lemma extractImagesFromPDF_result_witness :
  enoughFuel 5 (SampleOS.os ["nbClear"; "dangling.pdf"]) "dangling.pdf" /\
  exists (out : list mainEvent) (r : outcome (option pdfError)),
    extractImagesFromPDF 5 (fun _ => Sample.forwards)
      (SampleOS.os ["nbClear"; "dangling.pdf"]) "dangling.pdf"
    = Some (out, r) /\
    filesRead out = ["dangling.pdf"] /\
    match ReadContextFile (SampleOS.os ["nbClear"; "dangling.pdf"])
            "dangling.pdf" with
    | Err cause => r = Returns (Some (ErrReadPDF cause)) /\ scanEvents out = []
    | Ok ctx =>
        exists (events : list event) (scan : outcome (option error)),
          extractAllImages 5 (fun _ => Sample.forwards) ctx
          = Some (events, scan) /\
          scanEvents out = events /\
          r = match scan with
              | Returns scanErr => Returns (ErrExtractImages <$> scanErr)
              | Panics => Panics
              end
    end.
Proof.
  assert (Hfuel : enoughFuel 5 (SampleOS.os ["nbClear"; "dangling.pdf"])
                    "dangling.pdf").
  { intros ctx [= <-]. split; [reflexivity|]. vm_compute. lia. }
  split; [exact Hfuel|].
  exact (extractImagesFromPDF_result 5 (fun _ => Sample.forwards)
           (SampleOS.os ["nbClear"; "dangling.pdf"]) "dangling.pdf" Hfuel).
Defined.

Example broken_file_result :
  extractImagesFromPDF 5 (fun _ => Sample.forwards)
    (SampleOS.os ["nbClear"; "broken.pdf"]) "broken.pdf"
  = Some (Call_ReadContextFile "broken.pdf" :: (Scan <$> SampleOS.brokenOut),
          Returns (Some (ErrExtractImages
                           (ErrExtractPage 2
                              (ErrGetPageDict Sample.notFound))))).
Proof. reflexivity. Qed.

Example dangling_file_result :
  extractImagesFromPDF 5 (fun _ => Sample.forwards)
    (SampleOS.os ["nbClear"; "dangling.pdf"]) "dangling.pdf"
  = Some ([Call_ReadContextFile "dangling.pdf";
           Scan (Print (LinePageCount 2)); Scan (Print (LineRule "="));
           Scan (Call_extractImagesFromPage 1)], Panics).
Proof. reflexivity. Qed.



Example scan_file_exits_with_0 :
  main 4 (fun _ => Sample.forwards) (SampleOS.os ["nbClear"; "scan.pdf"])
  = Some (SampleOS.scanOut, 0).
Proof. reflexivity. Qed.

Example dangling_file_exits_with_2 :
  main 4 (fun _ => Sample.forwards) (SampleOS.os ["nbClear"; "dangling.pdf"])
  = Some ([Call_Stat "dangling.pdf";
           Stdout (LineAnalysing "dangling.pdf"); Stdout LineExtracting;
           Call_ReadContextFile "dangling.pdf";
           Scan (Print (LinePageCount 2)); Scan (Print (LineRule "="));
           Scan (Call_extractImagesFromPage 1)], 2).
Proof. reflexivity. Qed.

(** X13: the program ends, given fuel for the pages of the file it reads, and
    it has read at most one file, its first argument, and only when
    [os.Stat] does not report it as missing.  Further arguments are ignored,
    and an [os.Stat] error other than a missing file does not keep the
    program from reading the file. *)
Theorem main_reads_its_first_argument
    (fuel : nat) (range : Z -> rangeOrder) (os : OS) :
  (forall inputFile, Args os !! 1%nat = Some inputFile ->
                     enoughFuel fuel os inputFile) ->
  exists (out : list mainEvent) (code : Z),
    main fuel range os = Some (out, code) /\
    filesRead out
    = match Args os !! 1%nat with
      | Some inputFile =>
          if IsNotExist (Stat os inputFile) then [] else [inputFile]
      | None => []
      end.
Proof.
  intros Hfuel. unfold main.
  destruct (len (Args os) <? 2) eqn:Hargs.
  { eexists _, _. split; [reflexivity|].
    by rewrite (no_second_argument _ Hargs). }
  destruct (second_argument _ Hargs) as [inputFile Hfile]. rewrite Hfile.
  destruct (IsNotExist (Stat os inputFile)) eqn:Hstat.
  { by eexists _, _. }
  destruct (extractImagesFromPDF_ends fuel range os inputFile
              (Hfuel inputFile Hfile)) as (events & r & -> & Hread).
  destruct r as [[err|]|]; (eexists _, _; split; [reflexivity|]); cbn [app].
  - change (filesRead (events ++ [Fatalf (FatalFailed err)]) = [inputFile]).
    unfold filesRead in *. by rewrite omap_app, Hread.
  - exact Hread.
  - exact Hread.
Qed.

Lemma main_reads_witness :
  (forall inputFile,
      Args (SampleOS.os ["nbClear"; "scan.pdf"; "locked.pdf"]) !! 1%nat
      = Some inputFile ->
      enoughFuel 4 (SampleOS.os ["nbClear"; "scan.pdf"; "locked.pdf"])
        inputFile) /\
  exists (out : list mainEvent) (code : Z),
    main 4 (fun _ => Sample.forwards)
      (SampleOS.os ["nbClear"; "scan.pdf"; "locked.pdf"])
    = Some (out, code) /\
    filesRead out
    = match Args (SampleOS.os ["nbClear"; "scan.pdf"; "locked.pdf"]) !! 1%nat
      with
      | Some inputFile =>
          if IsNotExist
               (Stat (SampleOS.os ["nbClear"; "scan.pdf"; "locked.pdf"])
                  inputFile)
          then [] else [inputFile]
      | None => []
      end.
Proof.
  assert (Hfuel : forall inputFile,
             Args (SampleOS.os ["nbClear"; "scan.pdf"; "locked.pdf"]) !! 1%nat
             = Some inputFile ->
             enoughFuel 4 (SampleOS.os ["nbClear"; "scan.pdf"; "locked.pdf"])
               inputFile).
  { intros inputFile [= <-] ctx [= <-]. split; [reflexivity|].
    vm_compute. lia. }
  split; [exact Hfuel|].
  exact (main_reads_its_first_argument 4 (fun _ => Sample.forwards)
           (SampleOS.os ["nbClear"; "scan.pdf"; "locked.pdf"]) Hfuel).
Defined.

Example locked_file_run :
  main 4 (fun _ => Sample.forwards)
    (SampleOS.os ["nbClear"; "locked.pdf"; "scan.pdf"])
  = Some (SampleOS.lockedOut, 1) /\
  filesRead SampleOS.lockedOut = ["locked.pdf"].
Proof. split; reflexivity. Qed.

(** X14: how the program can end with status 1.  Either fewer than two
    arguments were given and only the usage was printed, or the last event
    is a fatal message: the file is missing (and was not read), the file
    could not be read, the document declares 0 pages, or the dictionary of a
    page [m] could not be produced. *)
Theorem main_failures
    (fuel : nat) (range : Z -> rangeOrder) (os : OS) (out : list mainEvent) :
  main fuel range os = Some (out, 1) ->
  (len (Args os) < 2 /\
   out = [Stdout LineUsage; Stdout LineUsageExample; Stdout LineUsagePurpose])
  \/
  exists (inputFile : string) (msg : fatalMessage),
    Args os !! 1%nat = Some inputFile /\
    last out = Some (Fatalf msg) /\
    ((msg = FatalNotExist inputFile /\ filesRead out = []) \/
     (exists cause, msg = FatalFailed (ErrReadPDF cause) /\
                    ReadContextFile os inputFile = Err cause) \/
     (exists ctx, msg = FatalFailed (ErrExtractImages ErrNoPages) /\
                  ReadContextFile os inputFile = Ok ctx /\
                  PageCount ctx = 0) \/
     (exists ctx m cause,
         msg = FatalFailed
                 (ErrExtractImages (ErrExtractPage m (ErrGetPageDict cause))) /\
         ReadContextFile os inputFile = Ok ctx /\
         PageDict ctx m = Err cause)).
Proof.
  unfold main.
  destruct (len (Args os) <? 2) eqn:Hargs.
  { intros [= <-]. left. split; [by apply Z.ltb_lt|done]. }
  destruct (second_argument _ Hargs) as [inputFile Hfile]. rewrite Hfile.
  intros Hrun. right. exists inputFile.
  destruct (IsNotExist (Stat os inputFile)) eqn:Hstat.
  { injection Hrun as <-. eexists. split; [done|]. split; [done|].
    left. done. }
  unfold extractImagesFromPDF in Hrun.
  destruct (ReadContextFile os inputFile) as [ctx|cause] eqn:Hread.
  - destruct (extractAllImages fuel range ctx)
      as [[events [[scanErr|]|]]|] eqn:Hscan;
      [|by injection Hrun|by injection Hrun|done].
    injection Hrun as <-. exists (FatalFailed (ErrExtractImages scanErr)).
    split; [done|].
    split; [exact (last_after _ [_; _; _; _] _)|].
    right. right.
    apply extractAllImages_error_cases in Hscan
      as [(-> & Hzero & _)|(m & cause & -> & Hpage & _)].
    + left. by exists ctx.
    + right. by exists ctx, m, cause.
  - injection Hrun as <-. eexists. split; [done|]. split; [done|].
    right. left. by exists cause.
Qed.

Lemma main_failures_witness :
  main 0 (fun _ => Sample.forwards) (SampleOS.os ["nbClear"; "missing.pdf"])
  = Some ([Call_Stat "missing.pdf"; Fatalf (FatalNotExist "missing.pdf")], 1)
  /\
  ((len (Args (SampleOS.os ["nbClear"; "missing.pdf"])) < 2 /\
    [Call_Stat "missing.pdf"; Fatalf (FatalNotExist "missing.pdf")]
    = [Stdout LineUsage; Stdout LineUsageExample; Stdout LineUsagePurpose])
   \/
   exists (inputFile : string) (msg : fatalMessage),
     Args (SampleOS.os ["nbClear"; "missing.pdf"]) !! 1%nat = Some inputFile /\
     last [Call_Stat "missing.pdf"; Fatalf (FatalNotExist "missing.pdf")]
     = Some (Fatalf msg) /\
     ((msg = FatalNotExist inputFile /\
       filesRead [Call_Stat "missing.pdf"; Fatalf (FatalNotExist "missing.pdf")]
       = []) \/
      (exists cause, msg = FatalFailed (ErrReadPDF cause) /\
                     ReadContextFile (SampleOS.os ["nbClear"; "missing.pdf"])
                       inputFile = Err cause) \/
      (exists ctx, msg = FatalFailed (ErrExtractImages ErrNoPages) /\
                   ReadContextFile (SampleOS.os ["nbClear"; "missing.pdf"])
                     inputFile = Ok ctx /\
                   PageCount ctx = 0) \/
      (exists ctx m cause,
          msg = FatalFailed
                  (ErrExtractImages (ErrExtractPage m (ErrGetPageDict cause))) /\
          ReadContextFile (SampleOS.os ["nbClear"; "missing.pdf"]) inputFile
          = Ok ctx /\
          PageDict ctx m = Err cause))).
Proof.
  split; [reflexivity|].
  apply (main_failures 0 (fun _ => Sample.forwards)
           (SampleOS.os ["nbClear"; "missing.pdf"])).
  reflexivity.
Defined.

(** X15: a document that declares 0 pages, seen from the whole program.  The
    two opening lines are written and the file is read; then the program
    ends with status 1 and the message of the scan, and no event of the scan
    (no page, no line of the report) has happened. *)
Theorem main_on_zero_pages
    (fuel : nat) (range : Z -> rangeOrder) (os : OS)
    (inputFile : string) (ctx : Context) :
  Args os !! 1%nat = Some inputFile ->
  IsNotExist (Stat os inputFile) = false ->
  ReadContextFile os inputFile = Ok ctx ->
  PageCount ctx = 0 ->
  main fuel range os
  = Some ([Call_Stat inputFile;
           Stdout (LineAnalysing inputFile); Stdout LineExtracting;
           Call_ReadContextFile inputFile;
           Fatalf (FatalFailed (ErrExtractImages ErrNoPages))], 1).
Proof.
  intros Hfile Hstat Hread Hzero. unfold main.
  assert ((len (Args os) <? 2) = false) as ->.
  { apply Z.ltb_ge. apply lookup_lt_Some in Hfile. unfold len. lia. }
  rewrite Hfile, Hstat. unfold extractImagesFromPDF. rewrite Hread.
  by rewrite (zero_pages_run fuel range ctx Hzero).
Qed.

Lemma main_on_zero_pages_witness :
  ReadContextFile (SampleOS.os ["nbClear"; "empty.pdf"]) "empty.pdf"
  = Ok Sample.empty /\
  main 0 (fun _ => Sample.forwards) (SampleOS.os ["nbClear"; "empty.pdf"])
  = Some ([Call_Stat "empty.pdf";
           Stdout (LineAnalysing "empty.pdf"); Stdout LineExtracting;
           Call_ReadContextFile "empty.pdf";
           Fatalf (FatalFailed (ErrExtractImages ErrNoPages))], 1).
Proof.
  split; [reflexivity|].
  apply (main_on_zero_pages 0 (fun _ => Sample.forwards)
           (SampleOS.os ["nbClear"; "empty.pdf"]) "empty.pdf" Sample.empty);
    reflexivity.
Defined.
